(** * The QA suite runner of the Health API QA framework

    A shallow embedding of [scripts/run_qa_suite.py]: the command executor
    ([run_command]), the seven category runners, the result aggregator
    ([run_full_suite], [generate_summary_report]) and the command line entry
    point ([main]), followed by the properties the design document states
    about them.

    The script is Python glue over external tools.  What it computes with are
    duck-typed dictionaries, so the embedding keeps them as such: a Python
    value is a [pyval], a dictionary is an insertion-ordered association list
    and [d["k"]] is a lookup that may raise [KeyError].  What it does to the
    outside world is threaded through a state-and-exception monad whose state
    holds the runner's [results] attribute, the part of the file system under
    the project root and the trace of what the process did.  What the outside
    world does in return, the child processes above all, is an [Env] that the
    properties quantify over.

    The progress lines that [log] prints are not part of the model: they
    decide nothing, and the events of the trace stand for the moments that
    matter. *)

From Stdlib Require Import ZArith QArith String Ascii List.
From stdpp Require Import base option list gmap strings.

Set Warnings "-register-all".
Close Scope Q_scope.
Open Scope string_scope.
Open Scope Z_scope.

(** ** Python values *)

Module Py.

(** Floats are modelled by the rationals they approximate: the only float
    arithmetic of the script is one division of two small non-negative
    integers and the difference of two clock readings. *)
Inductive pyval : Type :=
| VNone
| VBool (b : bool)
| VInt (z : Z)
| VFloat (q : Q)
| VStr (s : string)
| VList (l : list pyval)
| VDict (d : list (string * pyval)).

(** A path below the project root, as its list of components; [[]] is the
    project root itself. *)
Definition path := list string.

(** The exceptions the script can meet.  All of them derive from Python's
    [Exception]. *)
Inductive exn : Type :=
| KeyError (k : string)
| TypeError
| ZeroDivisionError
| FileNotFoundError (p : path)
| FileExistsError (p : path)
| NotADirectoryError (p : path)
| IsADirectoryError (p : path).

Inductive result (A : Type) : Type :=
| Ok (a : A)
| Raise (e : exn).
Arguments Ok {A} a.
Arguments Raise {A} e.

#[global] Instance result_ret : MRet result := fun A a => Ok a.
#[global] Instance result_bind : MBind result := fun A B f m =>
  match m with
  | Ok a => f a
  | Raise e => Raise e
  end.

(** *** Dictionaries: association lists in insertion order *)

Section dict.
Context {V : Type}.

Fixpoint dict_get (k : string) (d : list (string * V)) : option V :=
  match d with
  | [] => None
  | (k', v) :: d' => if String.eqb k k' then Some v else dict_get k d'
  end.

(** [d[k] = v]: an existing key keeps its position, a new one goes last. *)
Fixpoint dict_set (k : string) (v : V) (d : list (string * V)) : list (string * V) :=
  match d with
  | [] => [(k, v)]
  | (k', v') :: d' =>
      if String.eqb k k' then (k, v) :: d' else (k', v') :: dict_set k v d'
  end.

Definition dict_keys (d : list (string * V)) : list string := map fst d.
Definition dict_values (d : list (string * V)) : list V := map snd d.
End dict.

(** [d[k]] *)
Definition getitem (d : pyval) (k : string) : result pyval :=
  match d with
  | VDict kvs =>
      match dict_get k kvs with
      | Some v => Ok v
      | None => Raise (KeyError k)
      end
  | _ => Raise TypeError
  end.

(** [k in d] *)
Definition contains (d : pyval) (k : string) : bool :=
  match d with
  | VDict kvs => bool_decide (is_Some (dict_get k kvs))
  | _ => false
  end.

(** Truth value testing, as [if v:] does it. *)
Definition truthy (v : pyval) : bool :=
  match v with
  | VNone => false
  | VBool b => b
  | VInt z => negb (z =? 0)
  | VFloat q => negb (Qeq_bool q 0)
  | VStr s => negb (String.eqb s "")
  | VList l => negb (bool_decide (length l = 0%nat))
  | VDict d => negb (bool_decide (length d = 0%nat))
  end.

(** [a / b] on integers: true division, a float. *)
Definition truediv (a b : Z) : result pyval :=
  if b =? 0 then Raise ZeroDivisionError
  else Ok (VFloat (inject_Z a / inject_Z b)%Q).

(** [v == s] for a string literal [s]. *)
Definition eq_str (v : pyval) (s : string) : bool :=
  match v with
  | VStr s' => String.eqb s' s
  | _ => false
  end.

(** [sum(1 for r in rs if r[key])] *)
Fixpoint count_if (key : string) (rs : list pyval) : result Z :=
  match rs with
  | [] => Ok 0
  | r :: rs' =>
      v ← getitem r key;
      n ← count_if key rs';
      Ok (if truthy v then 1 + n else n)
  end.

End Py.
Export Py.

(** ** The file system below the project root *)

Module Fs.

Inductive content : Type :=
| Text (s : string)
| Json (v : pyval).

Inductive node : Type :=
| Dir
| File (c : content).

(** The project root is the directory that holds [scripts/], so it exists. *)
Definition fs_lookup (fs : gmap path node) (p : path) : option node :=
  match p with
  | [] => Some Dir
  | _ => fs !! p
  end.

Definition parent (p : path) : path := removelast p.

Definition basename (p : path) : string := List.last p "".

Definition is_dir (fs : gmap path node) (p : path) : bool :=
  match fs_lookup fs p with
  | Some Dir => true
  | _ => false
  end.

Definition exists_ (fs : gmap path node) (p : path) : bool :=
  bool_decide (is_Some (fs_lookup fs p)).

(** [os.mkdir(p)] *)
Definition os_mkdir (p : path) (fs : gmap path node) : result (gmap path node) :=
  match fs_lookup fs (parent p) with
  | None => Raise (FileNotFoundError p)
  | Some (File _) => Raise (NotADirectoryError p)
  | Some Dir =>
      match fs_lookup fs p with
      | Some _ => Raise (FileExistsError p)
      | None => Ok (<[p := Dir]> fs)
      end
  end.

(** [Path.mkdir(parents=False, exist_ok=...)]: [os.mkdir], and an error other
    than a missing parent is swallowed when [exist_ok] holds and the path is a
    directory already. *)
Definition mkdir_here (exist_ok : bool) (p : path) (fs : gmap path node)
  : result (gmap path node) :=
  match os_mkdir p fs with
  | Ok fs' => Ok fs'
  | Raise (FileNotFoundError q) => Raise (FileNotFoundError q)
  | Raise e => if exist_ok && is_dir fs p then Ok fs else Raise e
  end.

(** [Path.mkdir(parents=True, exist_ok=...)]: on a missing parent, the parent
    is made first (with [parents=True, exist_ok=True]) and the directory is then
    made with [parents=False].  The recursion goes up the path, so its depth is
    bounded by the number of components, which is what [depth] is. *)
Fixpoint mkdir_parents (depth : nat) (exist_ok : bool) (p : path)
    (fs : gmap path node) : result (gmap path node) :=
  match os_mkdir p fs with
  | Ok fs' => Ok fs'
  | Raise (FileNotFoundError q) =>
      match p, depth with
      | [], _ | _, O => Raise (FileNotFoundError q)
      | _, S depth' =>
          fs1 ← mkdir_parents depth' true (parent p) fs;
          mkdir_here exist_ok p fs1
      end
  | Raise e => if exist_ok && is_dir fs p then Ok fs else Raise e
  end.

(** [p.mkdir(parents=..., exist_ok=...)] *)
Definition mkdir (parents exist_ok : bool) (p : path) (fs : gmap path node)
  : result (gmap path node) :=
  if parents then mkdir_parents (length p) exist_ok p fs
  else mkdir_here exist_ok p fs.

(** [open(p, 'w')] followed by writing [c] and closing. *)
Definition write_file (p : path) (c : content) (fs : gmap path node)
  : result (gmap path node) :=
  match fs_lookup fs (parent p) with
  | None => Raise (FileNotFoundError p)
  | Some (File _) => Raise (NotADirectoryError p)
  | Some Dir =>
      match fs_lookup fs p with
      | Some Dir => Raise (IsADirectoryError p)
      | _ => Ok (<[p := File c]> fs)
      end
  end.

(** Shell-style matching of a name against a pattern whose only wildcard is
    [*] (any run of characters, the empty one included). *)
Fixpoint fnmatch (pat s : string) : bool :=
  match pat with
  | EmptyString =>
      match s with
      | EmptyString => true
      | _ => false
      end
  | String c pat' =>
      if Ascii.eqb c "*"%char then
        (fix star (s : string) : bool :=
           fnmatch pat' s ||
           match s with
           | EmptyString => false
           | String _ s' => star s'
           end) s
      else
        match s with
        | String d s' => Ascii.eqb c d && fnmatch pat' s'
        | EmptyString => false
        end
  end.

Definition glob_hit (dir : path) (pat : string) (p : path) : bool :=
  bool_decide (p ≠ [] ∧ parent p = dir) && fnmatch pat (basename p).

(** [dir.glob(pat)] for a pattern without a directory separator: the entries
    of [dir], files and directories alike, whose name matches. *)
Definition glob (dir : path) (pat : string) (fs : gmap path node) : gmap path node :=
  filter (fun kv => glob_hit dir pat kv.1 = true) fs.

End Fs.
Export Fs.

(** ** The runner and the world it acts on *)

(** What [subprocess.run(cmd, ..., timeout=t)] can do: return a completed
    process (return code, captured output, and the wall-clock time it took,
    which is what [end_time - start_time] measures), raise
    [subprocess.TimeoutExpired], or raise any other exception, such as the
    [FileNotFoundError] of a missing executable, of which [run_command] only
    uses the text [str(e)]. *)
Inductive proc_outcome : Type :=
| Completed (returncode : Z) (stdout stderr : string) (elapsed : Q)
| TimeoutExpired
| Failed (msg : string).

(** What an observer of the process sees, apart from the progress lines of
    [log]: the child processes it launches, the final console report, and the
    two error messages of the command line. *)
Inductive event : Type :=
| EvSpawn (cmd : list string) (timeout : Z)
| EvFinalReport (summary : pyval)
| EvUsageError (category : string)
| EvInvalidCategory (category : string).

(** The state the script threads: [self.results], the file system, and the
    trace of events so far. *)
Record State : Type := mkState {
  results : list (string * pyval);
  fs : gmap path node;
  trace : list event
}.

Definition set_results (r : list (string * pyval)) (st : State) : State :=
  {| results := r; fs := fs st; trace := trace st |}.
Definition set_fs (f : gmap path node) (st : State) : State :=
  {| results := results st; fs := f; trace := trace st |}.
Definition emit (e : event) (st : State) : State :=
  {| results := results st; fs := fs st; trace := trace st ++ [e] |}.

(** Computations that read and write the state and may raise. *)
Definition M (A : Type) : Type := State → result A * State.

#[global] Instance M_ret : MRet M := fun A a st => (Ok a, st).
#[global] Instance M_bind : MBind M := fun A B f m st =>
  match m st with
  | (Ok a, st') => f a st'
  | (Raise e, st') => (Raise e, st')
  end.

(** A pure computation that may raise, run inside [M]. *)
Definition lift {A : Type} (r : result A) : M A := fun st => (r, st).

(** A file system operation, run inside [M]; the file system is left as it
    was when the operation raises. *)
Definition fs_op (op : gmap path node → result (gmap path node)) : M unit :=
  fun st =>
    match op (fs st) with
    | Ok fs' => (Ok tt, set_fs fs' st)
    | Raise e => (Raise e, st)
    end.

(** The file system as it is now. *)
Definition read_fs : M (gmap path node) := fun st => (Ok (fs st), st).

(** [self.results] and [self.results[k] = v]. *)
Definition read_results : M (list (string * pyval)) :=
  fun st => (Ok (results st), st).
Definition store_result (k : string) (v : pyval) : M unit :=
  fun st => (Ok tt, set_results (dict_set k v (results st)) st).

(** [try: x = body; return on_ok(x)  except Exception as e: return handler(e)]
    where [on_ok] cannot raise. *)
Definition try_except {A B : Type} (body : M A) (on_ok : A → M B)
    (handler : exn → M B) : M B :=
  fun st =>
    match body st with
    | (Ok a, st') => on_ok a st'
    | (Raise e, st') => handler e st'
    end.

(** The environment of a run: the operating system's answer to launching a
    command in a given file system, which may also change the file system;
    Python's rendering [str(e)] of an exception; the two clock readings that
    [generate_summary_report] takes. *)
Record Env : Type := mkEnv {
  subprocess_run : list string → Z → gmap path node → proc_outcome * gmap path node;
  exn_str : exn → string;
  timestamp : string;
  total_duration : Q
}.

Module Runner.
Section Runner.

Variable env : Env.

(** [run_command(self, cmd, name, timeout=300)] *)
Definition run_command (cmd : list string) (name : string) (timeout : Z)
  : M pyval :=
  fun st =>
    let '(outcome, fs') := subprocess_run env cmd timeout (fs st) in
    let st' := set_fs fs' (emit (EvSpawn cmd timeout) st) in
    match outcome with
    | Completed returncode stdout stderr elapsed =>
        let success := returncode =? 0 in
        let duration := elapsed in
        (Ok (VDict [("name", VStr name);
                    ("success", VBool success);
                    ("duration", VFloat duration);
                    ("stdout", VStr stdout);
                    ("stderr", VStr stderr);
                    ("return_code", VInt returncode)]), st')
    | TimeoutExpired =>
        (Ok (VDict [("name", VStr name);
                    ("success", VBool false);
                    ("duration", VInt timeout);
                    ("error", VStr "Timeout")]), st')
    | Failed msg =>
        (Ok (VDict [("name", VStr name);
                    ("success", VBool false);
                    ("error", VStr msg)]), st')
    end.

Definition default_timeout : Z := 300.

Definition checks : list (list string * string) :=
  [ (["black"; "--check"; "api/"; "tests/"], "Black Code Formatting");
    (["isort"; "--check-only"; "api/"; "tests/"], "Import Sorting");
    (["flake8"; "api/"; "tests/"], "Flake8 Linting");
    (["pylint"; "api/"; "tests/"; "--fail-under=8.0"], "Pylint Analysis");
    (["bandit"; "-r"; "api/"], "Security Analysis");
    (["safety"; "check"], "Dependency Security") ].

(** [for cmd, name in cs: results.append(self.run_command(cmd, name))] *)
Fixpoint run_checks (cs : list (list string * string)) : M (list pyval) :=
  match cs with
  | [] => mret []
  | (cmd, name) :: cs' =>
      r ← run_command cmd name default_timeout;
      rs ← run_checks cs';
      mret (r :: rs)
  end.

(** [run_code_quality_checks(self)] *)
Definition run_code_quality_checks : M pyval :=
  results ← run_checks checks;
  success_count ← lift (count_if "success" results);
  success_rate ← lift (truediv success_count (Z.of_nat (length results)));
  mret (VDict [("category", VStr "code_quality");
               ("results", VList results);
               ("success_rate", success_rate);
               ("passed", VBool (success_count =? Z.of_nat (length results)))]).

Definition unit_tests_dir : path := ["tests"; "unit"].
Definition basic_test : path := (unit_tests_dir ++ ["test_basic.py"])%list.
Definition basic_test_text : string := "
# Basic unit test
def test_basic():
    assert True
".

Definition unit_tests_cmd : list string :=
  [ "pytest"; "tests/unit/";
    "--cov=api";
    "--cov-report=html:docs/coverage_report/htmlcov";
    "--cov-report=xml:docs/coverage_report/coverage.xml";
    "--cov-report=term-missing";
    "--junit-xml=docs/coverage_report/unit-tests.xml";
    "-v" ].

(** The first half of [run_unit_tests]: make [tests/unit] and, when it holds
    no [test_*.py], a basic test. *)
Definition prepare_unit_tests : M unit :=
  fs_op (mkdir false true unit_tests_dir);;
  now ← read_fs;
  if bool_decide (glob unit_tests_dir "test_*.py" now = ∅)
  then fs_op (write_file basic_test (Text basic_test_text))
  else mret tt.

(** The shape the six runners other than the quality one share: one command,
    one result, whose success is the category's verdict. *)
Definition run_single (category : string) (cmd : list string) (name : string)
    (timeout : Z) : M pyval :=
  result ← run_command cmd name timeout;
  success ← lift (getitem result "success");
  mret (VDict [("category", VStr category);
               ("results", VList [result]);
               ("passed", success)]).

(** [run_unit_tests(self)] *)
Definition run_unit_tests : M pyval :=
  prepare_unit_tests;;
  run_single "unit_tests" unit_tests_cmd "Unit Tests" default_timeout.

Definition functional_tests_cmd : list string :=
  [ "pytest"; "tests/functional/";
    "--html=docs/coverage_report/functional-report.html";
    "--self-contained-html";
    "--junit-xml=docs/coverage_report/functional-tests.xml";
    "-v" ].

(** [run_functional_tests(self)] *)
Definition run_functional_tests : M pyval :=
  run_single "functional_tests" functional_tests_cmd "Functional Tests"
    default_timeout.

Definition integration_tests_cmd : list string :=
  [ "pytest"; "tests/integration/";
    "--html=docs/coverage_report/integration-report.html";
    "--self-contained-html";
    "--junit-xml=docs/coverage_report/integration-tests.xml";
    "-v" ].

(** [run_integration_tests(self)] *)
Definition run_integration_tests : M pyval :=
  run_single "integration_tests" integration_tests_cmd "Integration Tests"
    default_timeout.

Definition contract_tests_cmd : list string :=
  [ "pytest"; "tests/contracts/";
    "--html=docs/coverage_report/contracts-report.html";
    "--self-contained-html";
    "--junit-xml=docs/coverage_report/contracts-tests.xml";
    "-v" ].

(** [run_contract_tests(self)] *)
Definition run_contract_tests : M pyval :=
  run_single "contract_tests" contract_tests_cmd "Contract Tests"
    default_timeout.

Definition performance_tests_cmd : list string :=
  [ "locust";
    "-f"; "tests/performance/locustfile.py";
    "--headless";
    "--users"; "10";
    "--spawn-rate"; "2";
    "--run-time"; "60s";
    "--host"; "http://localhost:8000";
    "--html"; "docs/coverage_report/performance-report.html" ].

(** [run_performance_tests(self)] *)
Definition run_performance_tests : M pyval :=
  run_single "performance_tests" performance_tests_cmd "Performance Tests" 120.

Definition security_tests_cmd : list string :=
  [ "pytest"; "tests/security/";
    "--html=docs/coverage_report/security-report.html";
    "--self-contained-html";
    "--junit-xml=docs/coverage_report/security-tests.xml";
    "-v"; "-m"; "security" ].

(** [run_security_tests(self)] *)
Definition run_security_tests : M pyval :=
  run_single "security_tests" security_tests_cmd "Security Tests"
    default_timeout.

Definition reports_dir : path := ["docs"; "coverage_report"].
Definition report_file : path := (reports_dir ++ ["qa_suite_summary.json"])%list.

(** The summary dictionary of [generate_summary_report], from the value of
    [self.results]. *)
Definition build_summary (results : list (string * pyval)) : result pyval :=
  let total_categories := Z.of_nat (length results) in
  passed_categories ← count_if "passed" (dict_values results);
  success_rate ←
    (if 0 <? total_categories
     then truediv passed_categories total_categories
     else Ok (VInt 0));
  Ok (VDict [("timestamp", VStr (timestamp env));
             ("total_duration", VFloat (total_duration env));
             ("total_categories", VInt total_categories);
             ("passed_categories", VInt passed_categories);
             ("success_rate", success_rate);
             ("overall_status",
              VStr (if passed_categories =? total_categories
                    then "PASSED" else "FAILED"));
             ("categories", VDict results)]).

(** [generate_summary_report(self)]: build the summary, write it as JSON to
    [docs/coverage_report/qa_suite_summary.json], return it. *)
Definition generate_summary_report : M pyval :=
  rs ← read_results;
  summary ← lift (build_summary rs);
  fs_op (mkdir true true (parent report_file));;
  fs_op (write_file report_file (Json summary));;
  mret summary.

(** [print_final_report(self, summary)]: console output only.  Every key it
    reads is one [build_summary] wrote, so on a summary of
    [generate_summary_report] it does not raise. *)
Definition print_final_report (summary : pyval) : M unit :=
  fun st => (Ok tt, emit (EvFinalReport summary) st).

Definition test_categories : list (string * M pyval) :=
  [ ("code_quality", run_code_quality_checks);
    ("unit_tests", run_unit_tests);
    ("functional_tests", run_functional_tests);
    ("integration_tests", run_integration_tests);
    ("contract_tests", run_contract_tests);
    ("performance_tests", run_performance_tests);
    ("security_tests", run_security_tests) ].

(** The record the aggregator stores for a category whose runner raised. *)
Definition error_result (category_name : string) (e : exn) : pyval :=
  VDict [("category", VStr category_name);
         ("passed", VBool false);
         ("error", VStr (exn_str env e))].

(** One turn of the loop of [run_full_suite]:
    [try: self.results[name] = f()  except Exception as e: self.results[name] = {...}] *)
Definition run_category (category_name : string) (test_function : M pyval)
  : M unit :=
  try_except test_function
    (fun result => store_result category_name result)
    (fun e => store_result category_name (error_result category_name e)).

(** [for category_name, test_function in cats: ...] *)
Fixpoint run_categories (cats : list (string * M pyval)) : M unit :=
  match cats with
  | [] => mret tt
  | (category_name, test_function) :: cats' =>
      run_category category_name test_function;;
      run_categories cats'
  end.

(** What follows the loop in [run_full_suite]. *)
Definition report_phase : M bool :=
  summary ← generate_summary_report;
  print_final_report summary;;
  status ← lift (getitem summary "overall_status");
  mret (eq_str status "PASSED").

(** [run_full_suite(self)] *)
Definition run_full_suite : M bool :=
  fs_op (mkdir true true reports_dir);;
  run_categories test_categories;;
  report_phase.

(** *** The command line *)

Definition choices : list string :=
  [ "code_quality"; "unit_tests"; "functional_tests";
    "integration_tests"; "contract_tests"; "performance_tests";
    "security_tests" ].

(** [parser.parse_args()], for a command line that is either empty or gives
    [--category] one value: [args.category] is [None] or the value, and a
    value outside [choices] ends the process with status 2 after a usage
    message. *)
Definition parse_args (category : option string) : Z + pyval :=
  match category with
  | None => inr VNone
  | Some c => if bool_decide (c ∈ choices) then inr (VStr c) else inl 2
  end.

Definition category_methods : list (string * M pyval) :=
  [ ("code_quality", run_code_quality_checks);
    ("unit_tests", run_unit_tests);
    ("functional_tests", run_functional_tests);
    ("integration_tests", run_integration_tests);
    ("contract_tests", run_contract_tests);
    ("performance_tests", run_performance_tests);
    ("security_tests", run_security_tests) ].

(** The body of [main] after [runner = QASuiteRunner()], up to the value of
    [success]. *)
Definition main_body (args_category : pyval) : M pyval :=
  if truthy args_category then
    match args_category with
    | VStr c =>
        match dict_get c category_methods with
        | Some method =>
            result ← method;
            lift (getitem result "passed")
        | None =>
            fun st => (Ok (VBool false), emit (EvInvalidCategory c) st)
        end
    | _ => lift (Raise TypeError)
    end
  else
    success ← run_full_suite;
    mret (VBool success).

(** [QASuiteRunner()]: [self.results = {}]. *)
Definition new_runner (fs0 : gmap path node) : State :=
  {| results := []; fs := fs0; trace := [] |}.

(** [main()], from the value given to [--category], if any, and the file
    system it starts in, to the exit status of the process and the state it
    ends in.  [sys.exit(0 if success else 1)] ends a run that gets that far;
    an exception nothing catches ends the interpreter with status 1. *)
Definition main (category : option string) (fs0 : gmap path node) : Z * State :=
  match parse_args category with
  | inl status =>
      (status, emit (EvUsageError (default "" category)) (new_runner fs0))
  | inr args_category =>
      match main_body args_category (new_runner fs0) with
      | (Ok success, st) => (if truthy success then 0 else 1, st)
      | (Raise _, st) => (1, st)
      end
  end.

End Runner.
End Runner.

Import Runner.

(** * Vocabulary of the properties *)

(** A dictionary value that holds a Python [bool] under [key]. *)
Definition has_flag (key : string) (r : pyval) : Prop :=
  ∃ b : bool, getitem r key = Ok (VBool b).

(** A dictionary value whose [key] is [True]. *)
Definition flag_set (key : string) (r : pyval) : Prop :=
  getitem r key = Ok (VBool true).

(** The state after [subprocess.run(cmd, timeout=t)] was called in [st]. *)
Definition after_spawn (env : Env) (cmd : list string) (t : Z) (st : State) : State :=
  set_fs (subprocess_run env cmd t (fs st)).2 (emit (EvSpawn cmd t) st).

(** The events of launching the commands of [cs], in order. *)
Definition spawns (cs : list (list string * string)) : list event :=
  map (fun c => EvSpawn c.1 default_timeout) cs.

(** Whether [r[key]] is [True], as a boolean. *)
Definition flag_on (key : string) (r : pyval) : bool :=
  match getitem r key with
  | Ok (VBool true) => true
  | _ => false
  end.

(** A runner as the aggregator expects it: it leaves [self.results] alone and
    what it returns holds a boolean [passed]. *)
Definition well_behaved (f : M pyval) : Prop :=
  ∀ (st st' : State) (r : result pyval),
    f st = (r, st') →
    results st' = results st ∧ ∀ v : pyval, r = Ok v → has_flag "passed" v.

(** The exceptions of the file system operations. *)
Definition os_error (e : exn) : Prop :=
  match e with
  | FileNotFoundError _ | FileExistsError _
  | NotADirectoryError _ | IsADirectoryError _ => True
  | _ => False
  end.

(** The verdict a summary carries. *)
Definition overall_status_of (n total : Z) : string :=
  if n =? total then "PASSED" else "FAILED".

(** Every recorded category result has [passed == True]. *)
Definition all_passed (rs : list (string * pyval)) : Prop :=
  Forall (flag_set "passed") (dict_values rs).

(** An environment in which every command exits with the given status after
    one second and leaves the file system alone. *)
Definition env_exit (status : Z) : Env :=
  {| subprocess_run := fun _ _ f => (Completed status "" "" 1%Q, f);
     exn_str := fun _ => "error";
     timestamp := "2024-01-01T00:00:00";
     total_duration := 42%Q |}.

(** A checkout that has its [tests/] directory and nothing else. *)
Definition fs_checkout : gmap path node := {[ ["tests"] := Dir ]}.

(** The summary of a runner that has recorded nothing. *)
Definition empty_summary (env : Env) : pyval :=
  VDict [("timestamp", VStr (timestamp env));
         ("total_duration", VFloat (total_duration env));
         ("total_categories", VInt 0);
         ("passed_categories", VInt 0);
         ("success_rate", VInt 0);
         ("overall_status", VStr "PASSED");
         ("categories", VDict [])].

(** A file system in which the report directory is in place. *)
Definition fs_with_reports : gmap path node :=
  {[ ["docs"] := Dir; ["docs"; "coverage_report"] := Dir ]}.

(** The number of category entries of the summary report on disk, if there
    is one. *)
Definition report_entries (st : State) : option nat :=
  match fs_lookup (fs st) report_file with
  | Some (File (Json summary)) =>
      match getitem summary "categories" with
      | Ok (VDict categories) => Some (length categories)
      | _ => None
      end
  | _ => None
  end.

(** The summaries the run has printed. *)
Definition printed_summaries (st : State) : list pyval :=
  omap (fun ev => match ev with EvFinalReport s => Some s | _ => None end) (trace st).

(** The commands the run has launched. *)
Definition launched (st : State) : list (list string) :=
  omap (fun ev => match ev with EvSpawn cmd _ => Some cmd | _ => None end) (trace st).

(** An environment in which every command runs into its timeout. *)
Definition env_timeout : Env :=
  {| subprocess_run := fun _ _ f => (TimeoutExpired, f);
     exn_str := fun _ => "error";
     timestamp := "2024-01-01T00:00:00";
     total_duration := 42%Q |}.

(** The runners of the six categories other than the quality one. *)
Definition single_command_runners (env : Env) : list (string * M pyval) :=
  tail (test_categories env).

(** What preparing the unit tests has done when the file system went from
    [before] to [after]: [tests/unit] is a directory; if it held no entry
    matching [test_*.py], [tests/unit/test_basic.py] holds the basic test, and
    otherwise that path is as it was; no other path has changed. *)
Definition unit_tests_prepared (before after : gmap path node) : Prop :=
  is_dir after unit_tests_dir = true ∧
  (glob unit_tests_dir "test_*.py" before = ∅ →
   fs_lookup after basic_test = Some (File (Text basic_test_text))) ∧
  (glob unit_tests_dir "test_*.py" before ≠ ∅ →
   fs_lookup after basic_test = fs_lookup before basic_test) ∧
  (∀ p : path, p ≠ unit_tests_dir → p ≠ basic_test →
               fs_lookup after p = fs_lookup before p).

(** What the aggregator has to record for a category: the result its runner
    returned, or the error record of the exception it raised. *)
Definition outcome (env : Env) (name : string) (r : result pyval) : pyval :=
  match r with
  | Ok v => v
  | Raise e => error_result env name e
  end.

(** The outcomes of the runners of [cats] run one after the other from
    [st], each in the state its predecessor left, under their names. *)
Fixpoint outcomes (env : Env) (cats : list (string * M pyval)) (st : State)
  : list (string * pyval) :=
  match cats with
  | [] => []
  | (name, f) :: cats' =>
      (name, outcome env name (f st).1) :: outcomes env cats' (f st).2
  end.

(** The state in which the loop of a full suite starts: that of a new
    runner, after [reports_dir.mkdir(parents=True, exist_ok=True)]. *)
Definition suite_start (fs0 : gmap path node) : State :=
  (fs_op (mkdir true true reports_dir) (new_runner fs0)).2.

(** At least one recorded category result has [passed == False]. *)
Definition some_failed (rs : list (string * pyval)) : Prop :=
  Exists (fun r => getitem r "passed" = Ok (VBool false)) (dict_values rs).

(** A computation that does not read [self.results]: it does the same
    whatever is recorded, and leaves the records as they are. *)
Definition ignores_results {A : Type} (m : M A) : Prop :=
  ∀ (rs : list (string * pyval)) (st : State),
    m (set_results rs st) = ((m st).1, set_results rs (m st).2).

(** The events of the five categories that follow the unit tests in a full
    suite, with the timeout each command is given. *)
Definition later_spawns : list event :=
  [ EvSpawn functional_tests_cmd 300;
    EvSpawn integration_tests_cmd 300;
    EvSpawn contract_tests_cmd 300;
    EvSpawn performance_tests_cmd 120;
    EvSpawn security_tests_cmd 300 ].

(** Whether an event is the launch of a command. *)
Definition is_spawn (ev : event) : bool :=
  match ev with
  | EvSpawn _ _ => true
  | _ => false
  end.

(** A runner that does nothing an observer sees but launch commands. *)
Definition spawn_only (f : M pyval) : Prop :=
  ∀ st : State,
    ∃ evs : list event,
      trace (f st).2 = (trace st ++ evs)%list ∧
      Forall (fun ev => is_spawn ev = true) evs.

(** The result of a command that completed with return code 0. *)
Definition exited_zero (res : pyval) : Prop :=
  getitem res "return_code" = Ok (VInt 0).

(** A category result that lists at least one command, all of which
    completed with return code 0. *)
Definition commands_exited_zero (r : pyval) : Prop :=
  ∃ rs : list pyval,
    getitem r "results" = Ok (VList rs) ∧ rs ≠ [] ∧ Forall exited_zero rs.

(** A category result that does not say [passed] unless its commands all
    completed with return code 0. *)
Definition honest (r : pyval) : Prop :=
  flag_set "passed" r → commands_exited_zero r.

Definition honest_runner (f : M pyval) : Prop :=
  ∀ (st st' : State) (r : pyval), f st = (Ok r, st') → honest r.

(** A layout the runner can work in: [tests/] is a directory, [tests/unit]
    is absent or a directory, [docs/] and [docs/coverage_report] are
    directories, and the path of the summary report is not a directory. *)
Definition healthy (f : gmap path node) : Prop :=
  is_dir f ["tests"] = true ∧
  (exists_ f unit_tests_dir = true → is_dir f unit_tests_dir = true) ∧
  is_dir f ["docs"] = true ∧
  is_dir f reports_dir = true ∧
  is_dir f report_file = false.

(** An environment whose tools all pass: launched in a healthy layout, every
    command completes with return code 0 and leaves the layout healthy. *)
Definition tools_pass (env : Env) : Prop :=
  ∀ (cmd : list string) (t : Z) (f : gmap path node),
    healthy f →
    (∃ (out err : string) (elapsed : Q),
        (subprocess_run env cmd t f).1 = Completed 0 out err elapsed) ∧
    healthy (subprocess_run env cmd t f).2.

(** A checkout with its [tests/] directory and the report directory. *)
Definition fs_ready : gmap path node :=
  {[ ["tests"] := Dir; ["docs"] := Dir; ["docs"; "coverage_report"] := Dir ]}.

(** A runner that passes in a healthy layout and leaves it healthy. *)
Definition passes_when_healthy (f : M pyval) : Prop :=
  ∀ st : State,
    healthy (fs st) →
    ∃ (r : pyval) (st' : State),
      f st = (Ok r, st') ∧ flag_set "passed" r ∧ healthy (fs st').

(** Whether an event is the message of the branch of [main] that handles a
    category without a runner. *)
Definition is_invalid_category (ev : event) : bool :=
  match ev with
  | EvInvalidCategory _ => true
  | _ => false
  end.

(** A Python value that is a dictionary. *)
Definition is_dict (v : pyval) : Prop := ∃ d : list (string * pyval), v = VDict d.

(** A state whose one recorded result has no [passed]. *)
Definition st_unflagged : State :=
  {| results := [("code_quality", VDict [("category", VStr "code_quality")])];
     fs := fs_ready; trace := [] |}.

(** The paths the script itself may create or write. *)
Definition own_paths : list path :=
  [ ["docs"]; reports_dir; report_file; unit_tests_dir; basic_test ].

(** An environment whose commands leave the file system as they find it. *)
Definition quiet (env : Env) : Prop :=
  ∀ (cmd : list string) (t : Z) (f : gmap path node),
    (subprocess_run env cmd t f).2 = f.

(** A computation that leaves every path alone that is not one of the
    script's own. *)
Definition keeps_other_paths {A : Type} (m : M A) : Prop :=
  ∀ (st : State) (p : path),
    p ∉ own_paths → fs_lookup (fs (m st).2) p = fs_lookup (fs st) p.

(** The same, of a file system operation that succeeds. *)
Definition op_keeps_other_paths (op : gmap path node → result (gmap path node)) : Prop :=
  ∀ (f f' : gmap path node) (p : path),
    op f = Ok f' → p ∉ own_paths → fs_lookup f' p = fs_lookup f p.


(** * Properties *)

(** ** Reasoning about the monad *)

Lemma bind_unfold {A B : Type} (m : M A) (f : A → M B) (st : State) :
  (m ≫= f) st =
  match m st with
  | (Ok a, st') => f a st'
  | (Raise e, st') => (Raise e, st')
  end.
Proof. reflexivity. Qed.

Lemma bind_ok {A B : Type} (m : M A) (f : A → M B) (st st' : State) (a : A) :
  m st = (Ok a, st') → (m ≫= f) st = f a st'.
Proof. intros H. rewrite bind_unfold, H. reflexivity. Qed.

Lemma bind_raise {A B : Type} (m : M A) (f : A → M B) (st st' : State) (e : exn) :
  m st = (Raise e, st') → (m ≫= f) st = (Raise e, st').
Proof. intros H. rewrite bind_unfold, H. reflexivity. Qed.

(** ** Dictionaries *)

Lemma dict_get_set_eq {V : Type} (k : string) (v : V) (d : list (string * V)) :
  dict_get k (dict_set k v d) = Some v.
Proof.
  induction d as [|[k' v'] d IH]; simpl.
  - rewrite String.eqb_refl. reflexivity.
  - destruct (String.eqb k k') eqn:E; simpl.
    + rewrite String.eqb_refl. reflexivity.
    + rewrite E. exact IH.
Qed.

Lemma dict_get_set_ne {V : Type} (k k' : string) (v : V) (d : list (string * V)) :
  k ≠ k' → dict_get k' (dict_set k v d) = dict_get k' d.
Proof.
  intros Hne. induction d as [|[k0 v0] d IH]; simpl.
  - destruct (String.eqb k' k) eqn:E; [|reflexivity].
    apply String.eqb_eq in E. congruence.
  - destruct (String.eqb k k0) eqn:E; simpl.
    + apply String.eqb_eq in E. subst k0.
      destruct (String.eqb k' k) eqn:E'; [|reflexivity].
      apply String.eqb_eq in E'. congruence.
    + rewrite IH. reflexivity.
Qed.

Lemma dict_set_values {V : Type} (P : V → Prop) (k : string) (v : V)
    (d : list (string * V)) :
  Forall P (dict_values d) → P v → Forall P (dict_values (dict_set k v d)).
Proof.
  unfold dict_values. intros Hd Hv.
  induction d as [|[k' v'] d IH]; simpl.
  - constructor; [exact Hv | constructor].
  - inversion Hd as [|? ? Hv' Hd']; subst.
    destruct (String.eqb k k'); simpl; constructor; auto.
Qed.

Lemma dict_get_values {V : Type} (P : V → Prop) (k : string) (v : V)
    (d : list (string * V)) :
  Forall P (dict_values d) → dict_get k d = Some v → P v.
Proof.
  unfold dict_values. induction d as [|[k' v'] d IH]; simpl; [discriminate|].
  intros Hd. inversion Hd; subst.
  destruct (String.eqb k k'); [intros [= <-]; assumption | auto].
Qed.

(** [count_if] on dictionaries that all hold a flag: it does not raise, and it
    counts the flags that are set. *)
Lemma count_if_flags (key : string) (rs : list pyval) :
  Forall (has_flag key) rs →
  ∃ n : Z, count_if key rs = Ok n ∧ 0 ≤ n ≤ Z.of_nat (length rs) ∧
           (n = Z.of_nat (length rs) ↔ Forall (flag_set key) rs).
Proof.
  induction 1 as [|r rs [b Hb] _ (n & Hn & Hbound & Hall)].
  - exists 0. simpl. repeat split; try lia; constructor.
  - cbn [count_if]. rewrite Hb, Hn. cbn.
    destruct b; cbn [truthy].
    + exists (1 + n). split; [reflexivity|]. split; [lia|].
      rewrite Forall_cons. unfold flag_set at 1. rewrite Hb.
      split.
      * intros ?. split; [reflexivity|]. apply Hall. lia.
      * intros [_ ?]. apply Hall in H. lia.
    + exists n. split; [reflexivity|]. split; [lia|].
      rewrite Forall_cons. unfold flag_set at 1. rewrite Hb.
      split; [lia | intros [[=] _]].
Qed.

(** ** The command executor and the category runners *)

Section RunnerFacts.

Variable env : Env.

(** [run_command] always returns, whatever the child process did, and its
    result holds a boolean [success]. *)
Lemma run_command_returns (cmd : list string) (name : string) (t : Z) (st : State) :
  ∃ (r : pyval) (b : bool),
    run_command env cmd name t st = (Ok r, after_spawn env cmd t st) ∧
    getitem r "success" = Ok (VBool b).
Proof.
  unfold run_command, after_spawn.
  destruct (subprocess_run env cmd t (fs st)) as [[rc so se el| |msg] fs'];
    cbn [snd]; eauto.
Qed.

Lemma run_single_returns (category : string) (cmd : list string) (name : string)
    (t : Z) (st : State) :
  ∃ (res : pyval) (b : bool),
    run_command env cmd name t st = (Ok res, after_spawn env cmd t st) ∧
    getitem res "success" = Ok (VBool b) ∧
    run_single env category cmd name t st =
      (Ok (VDict [("category", VStr category);
                  ("results", VList [res]);
                  ("passed", VBool b)]), after_spawn env cmd t st).
Proof.
  destruct (run_command_returns cmd name t st) as (res & b & Hrun & Hb).
  exists res, b. repeat split; try assumption.
  unfold run_single. rewrite (bind_ok _ _ _ _ _ Hrun).
  rewrite bind_unfold. unfold lift at 1. rewrite Hb. reflexivity.
Qed.

Lemma run_checks_returns (cs : list (list string * string)) (st : State) :
  ∃ (rs : list pyval) (st' : State),
    run_checks env cs st = (Ok rs, st') ∧
    length rs = length cs ∧
    Forall (has_flag "success") rs ∧
    results st' = results st ∧
    trace st' = (trace st ++ spawns cs)%list.
Proof.
  revert st. induction cs as [|[cmd name] cs IH]; intros st.
  - exists [], st. cbn. rewrite app_nil_r. repeat split. constructor.
  - destruct (run_command_returns cmd name default_timeout st) as (r & b & Hr & Hb).
    destruct (IH (after_spawn env cmd default_timeout st)) as (rs & st' & Hrs & Hlen & Hall & Hres & Htr).
    exists (r :: rs), st'. cbn [run_checks].
    rewrite (bind_ok _ _ _ _ _ Hr), (bind_ok _ _ _ _ _ Hrs).
    repeat split.
    + cbn. congruence.
    + constructor; [exists b; exact Hb | exact Hall].
    + rewrite Hres. reflexivity.
    + rewrite Htr. cbn. rewrite <- app_assoc. reflexivity.
Qed.

(** On dictionaries that all hold the flag, [count_if] is the number of those
    whose flag is set. *)
Lemma count_if_counts (key : string) (rs : list pyval) :
  Forall (has_flag key) rs →
  count_if key rs = Ok (Z.of_nat (length (List.filter (flag_on key) rs))).
Proof.
  induction 1 as [|r rs [b Hb] _ IH]; [reflexivity|].
  cbn [count_if List.filter]. unfold flag_on at 1. rewrite Hb, IH. cbn.
  destruct b; cbn [truthy length]; f_equal; lia.
Qed.

(** The quality runner always returns: it launches the six tools in order and
    reports the number [n] of those that succeeded as [n / 6] and [n == 6]. *)
Lemma run_code_quality_checks_returns (st : State) :
  ∃ (rs : list pyval) (st' : State),
    let n := Z.of_nat (length (List.filter (flag_on "success") rs)) in
    run_checks env checks st = (Ok rs, st') ∧
    length rs = 6%nat ∧
    Forall (has_flag "success") rs ∧
    run_code_quality_checks env st =
      (Ok (VDict [("category", VStr "code_quality");
                  ("results", VList rs);
                  ("success_rate", VFloat (inject_Z n / inject_Z 6)%Q);
                  ("passed", VBool (n =? 6))]), st') ∧
    results st' = results st ∧
    trace st' = (trace st ++ spawns checks)%list.
Proof.
  destruct (run_checks_returns checks st) as (rs & st' & Hrs & Hlen & Hall & Hres & Htr).
  exists rs, st'. cbn zeta.
  repeat split; try assumption.
  unfold run_code_quality_checks.
  rewrite (bind_ok _ _ _ _ _ Hrs).
  rewrite bind_unfold. unfold lift at 1.
  rewrite (count_if_counts _ _ Hall).
  rewrite bind_unfold. unfold lift at 1.
  rewrite Hlen. reflexivity.
Qed.

(** *** The unit test runner and the files it prepares *)

Lemma fs_op_frame (op : gmap path node → result (gmap path node))
    (r : result unit) (st st' : State) :
  fs_op op st = (r, st') → results st' = results st ∧ trace st' = trace st.
Proof.
  unfold fs_op. destruct (op (fs st)); intros [= <- <-]; split; reflexivity.
Qed.

(** Preparing the unit tests launches nothing and records nothing. *)
Lemma prepare_unit_tests_frame (r : result unit) (st st' : State) :
  prepare_unit_tests st = (r, st') →
  results st' = results st ∧ trace st' = trace st.
Proof.
  unfold prepare_unit_tests. rewrite bind_unfold.
  destruct (fs_op (mkdir false true unit_tests_dir) st) as [[[]|e] st1] eqn:E1;
    apply fs_op_frame in E1 as [Hr1 Ht1].
  - rewrite bind_unfold. unfold read_fs at 1.
    case_bool_decide.
    + intros Hw. apply fs_op_frame in Hw as [Hr2 Ht2]. split; congruence.
    + intros [= <- <-]. split; assumption.
  - intros [= <- <-]. split; assumption.
Qed.

(** The unit test runner either fails while it prepares the files, before any
    command is launched, or launches its one command and returns. *)
Lemma run_unit_tests_cases (st : State) :
  (∃ (e : exn) (st' : State),
      prepare_unit_tests st = (Raise e, st') ∧
      run_unit_tests env st = (Raise e, st') ∧
      results st' = results st ∧ trace st' = trace st)
  ∨
  (∃ (stp : State) (res : pyval) (b : bool),
      prepare_unit_tests st = (Ok tt, stp) ∧
      results stp = results st ∧ trace stp = trace st ∧
      run_command env unit_tests_cmd "Unit Tests" default_timeout stp =
        (Ok res, after_spawn env unit_tests_cmd default_timeout stp) ∧
      getitem res "success" = Ok (VBool b) ∧
      run_unit_tests env st =
        (Ok (VDict [("category", VStr "unit_tests");
                    ("results", VList [res]);
                    ("passed", VBool b)]),
         after_spawn env unit_tests_cmd default_timeout stp)).
Proof.
  unfold run_unit_tests.
  destruct (prepare_unit_tests st) as [[[]|e] stp] eqn:Hprep;
    pose proof (prepare_unit_tests_frame _ _ _ Hprep) as [Hr Ht].
  - right.
    destruct (run_single_returns "unit_tests" unit_tests_cmd "Unit Tests"
                default_timeout stp) as (res & b & Hrun & Hb & Hsingle).
    exists stp, res, b. repeat split; try assumption.
    rewrite (bind_ok _ _ _ _ _ Hprep). exact Hsingle.
  - left. exists e, stp. repeat split; try assumption.
    apply bind_raise. exact Hprep.
Qed.

(** An entry that [glob] would return is absent when [glob] returns nothing. *)
Lemma glob_empty_lookup (dir : path) (pat : string) (f : gmap path node) (p : path) :
  glob dir pat f = ∅ → glob_hit dir pat p = true → f !! p = None.
Proof.
  intros Hempty Hhit.
  destruct (f !! p) as [x|] eqn:E; [|reflexivity].
  assert (glob dir pat f !! p = Some x) as Hin.
  { unfold glob. apply map_lookup_filter_Some. split; [exact E | exact Hhit]. }
  rewrite Hempty, lookup_empty in Hin. discriminate.
Qed.

(** Making a directory does not change what [glob] finds in it. *)
Lemma glob_insert_dir (dir : path) (pat : string) (f : gmap path node) (x : node) :
  dir ≠ [] → glob dir pat (<[dir := x]> f) = glob dir pat f.
Proof.
  intros Hne. unfold glob. apply map_filter_insert_not.
  intros y. cbn [fst]. unfold glob_hit.
  rewrite andb_true_iff, bool_decide_eq_true.
  intros [[_ Hparent] _]. unfold parent in Hparent.
  apply (f_equal (@length string)) in Hparent.
  destruct dir as [|d dir]; [congruence|].
  rewrite (@app_removelast_last _ (d :: dir) "") in Hparent at 2 by discriminate.
  rewrite length_app in Hparent. cbn in Hparent. lia.
Qed.

Lemma fs_lookup_insert_eq (p : path) (x : node) (f : gmap path node) :
  p ≠ [] → fs_lookup (<[p := x]> f) p = Some x.
Proof. destruct p; [congruence|]. intros _. apply lookup_insert_eq. Qed.

Lemma fs_lookup_insert_ne (p q : path) (x : node) (f : gmap path node) :
  p ≠ q → fs_lookup (<[p := x]> f) q = fs_lookup f q.
Proof. destruct q; [reflexivity|]. intros ?. by apply lookup_insert_ne. Qed.

Lemma os_mkdir_new (p : path) (f : gmap path node) :
  fs_lookup f (parent p) = Some Dir → fs_lookup f p = None →
  os_mkdir p f = Ok (<[p := Dir]> f).
Proof. unfold os_mkdir. intros -> ->. reflexivity. Qed.

Lemma mkdir_here_new (exist_ok : bool) (p : path) (f : gmap path node) :
  fs_lookup f (parent p) = Some Dir → fs_lookup f p = None →
  mkdir_here exist_ok p f = Ok (<[p := Dir]> f).
Proof. intros H1 H2. unfold mkdir_here. rewrite os_mkdir_new by assumption. reflexivity. Qed.

Lemma mkdir_here_present (p : path) (f : gmap path node) :
  fs_lookup f (parent p) = Some Dir → fs_lookup f p = Some Dir →
  mkdir_here true p f = Ok f.
Proof.
  intros H1 H2. unfold mkdir_here, os_mkdir, is_dir. rewrite H1, H2. reflexivity.
Qed.

Lemma write_file_new (p : path) (c : content) (f : gmap path node) :
  fs_lookup f (parent p) = Some Dir → fs_lookup f p ≠ Some Dir →
  write_file p c f = Ok (<[p := File c]> f).
Proof.
  intros H1 H2. unfold write_file. rewrite H1.
  destruct (fs_lookup f p) as [[|?]|]; congruence.
Qed.

Lemma glob_empty_fs_lookup (dir : path) (pat : string) (f : gmap path node) (p : path) :
  glob dir pat f = ∅ → glob_hit dir pat p = true → fs_lookup f p = None.
Proof.
  intros Hempty Hhit. destruct p as [|a p].
  - unfold glob_hit in Hhit. rewrite andb_true_iff, bool_decide_eq_true in Hhit.
    destruct Hhit as [[? _] _]. congruence.
  - cbn [fs_lookup]. eapply glob_empty_lookup; eassumption.
Qed.

(** With [tests/] in place and [tests/unit] absent or a directory, the
    preparation of the unit tests succeeds. *)
Lemma prepare_unit_tests_succeeds (st : State) :
  is_dir (fs st) ["tests"] = true →
  (exists_ (fs st) unit_tests_dir = true → is_dir (fs st) unit_tests_dir = true) →
  ∃ stp : State, prepare_unit_tests st = (Ok tt, stp).
Proof.
  destruct st as [rs f tr]. cbn [fs]. intros Htests Hunit.
  assert (fs_lookup f (parent unit_tests_dir) = Some Dir) as Hparent.
  { change (parent unit_tests_dir) with ["tests"]. unfold is_dir in Htests.
    destruct (fs_lookup f ["tests"]) as [[|?]|]; congruence. }
  assert (glob_hit unit_tests_dir "test_*.py" basic_test = true) as Hhit
    by (vm_compute; reflexivity).
  assert (∃ f1 : gmap path node,
            mkdir false true unit_tests_dir f = Ok f1 ∧
            fs_lookup f1 unit_tests_dir = Some Dir)
    as (f1 & Hmk & Hdir1).
  { unfold mkdir, exists_, is_dir in *.
    destruct (fs_lookup f unit_tests_dir) as [x|] eqn:E.
    - assert (x = Dir) as ->.
      { destruct x; [reflexivity|].
        discriminate Hunit. apply bool_decide_eq_true. eauto. }
      exists f. by rewrite mkdir_here_present.
    - exists (<[unit_tests_dir := Dir]> f).
      rewrite mkdir_here_new by assumption.
      split; [reflexivity|]. by apply fs_lookup_insert_eq. }
  unfold prepare_unit_tests. rewrite bind_unfold.
  unfold fs_op at 1. cbn [fs]. rewrite Hmk.
  rewrite bind_unfold. unfold read_fs at 1. cbn [set_fs fs].
  case_bool_decide as Hglob; [|eauto].
  pose proof (glob_empty_fs_lookup _ _ _ _ Hglob Hhit) as Hnone.
  unfold fs_op. cbn [fs set_fs]. rewrite write_file_new; [eauto|exact Hdir1|].
  rewrite Hnone. discriminate.
Qed.

End RunnerFacts.

Section AggregatorFacts.

Variable env : Env.

Lemma run_single_well_behaved (category : string) (cmd : list string)
    (name : string) (t : Z) :
  well_behaved (run_single env category cmd name t).
Proof.
  intros st st' r H.
  destruct (run_single_returns env category cmd name t st) as (res & b & _ & _ & Hs).
  rewrite Hs in H. injection H as <- <-.
  split; [reflexivity|]. intros v [= <-]. exists b. reflexivity.
Qed.

Lemma run_unit_tests_well_behaved : well_behaved (run_unit_tests env).
Proof.
  intros st st' r H.
  destruct (run_unit_tests_cases env st)
    as [(e & st1 & _ & Hr & Hres & _) | (stp & res & b & _ & Hres & _ & _ & _ & Hr)];
    rewrite Hr in H; injection H as <- <-.
  - split; [exact Hres|]. intros v [=].
  - split; [exact Hres|]. intros v [= <-]. exists b. reflexivity.
Qed.

Lemma run_code_quality_checks_well_behaved :
  well_behaved (run_code_quality_checks env).
Proof.
  intros st st' r H.
  destruct (run_code_quality_checks_returns env st)
    as (rs & st1 & _ & _ & _ & Hr & Hres & _).
  cbn zeta in Hr. rewrite Hr in H. injection H as <- <-.
  split; [exact Hres|]. intros v [= <-]. eexists. reflexivity.
Qed.

Lemma test_categories_well_behaved :
  Forall (fun c => well_behaved c.2) (test_categories env).
Proof.
  unfold test_categories.
  repeat (constructor; [first [ apply run_code_quality_checks_well_behaved
                              | apply run_unit_tests_well_behaved
                              | apply run_single_well_behaved ] |]).
  constructor.
Qed.

(** One turn of the loop never raises: it stores what the runner returned, or
    the error record of what it raised. *)
Lemma run_category_returns (name : string) (f : M pyval) (st : State) :
  well_behaved f →
  ∃ (v : pyval) (st_f : State),
    run_category env name f st =
      (Ok tt, set_results (dict_set name v (results st)) st_f) ∧
    has_flag "passed" v ∧
    (f st = (Ok v, st_f) ∨
     ∃ e : exn, f st = (Raise e, st_f) ∧ v = error_result env name e).
Proof.
  intros Hf. unfold run_category, try_except, store_result.
  destruct (f st) as [[v|e] st_f] eqn:E; destruct (Hf _ _ _ E) as [Hres Hflag].
  - exists v, st_f. rewrite Hres. split; [reflexivity|]. split; [auto|]. by left.
  - exists (error_result env name e), st_f. rewrite Hres.
    split; [reflexivity|]. split; [by exists false|]. right. by exists e.
Qed.

Lemma run_categories_app (pre post : list (string * M pyval)) (st st1 : State) :
  run_categories env pre st = (Ok tt, st1) →
  run_categories env (pre ++ post) st = run_categories env post st1.
Proof.
  revert st. induction pre as [|[n f] pre IH]; intros st.
  - intros [= <-]. reflexivity.
  - cbn [run_categories app]. rewrite !bind_unfold.
    destruct (run_category env n f st) as [[[]|e] st0]; [apply IH | discriminate].
Qed.

(** The loop never raises; it keeps every stored result a dictionary with a
    boolean [passed], leaves a record for each category it was given, and
    touches no other key. *)
Lemma run_categories_returns (cats : list (string * M pyval)) (st : State) :
  Forall (fun c => well_behaved c.2) cats →
  ∃ st' : State,
    run_categories env cats st = (Ok tt, st') ∧
    (Forall (has_flag "passed") (dict_values (results st)) →
     Forall (has_flag "passed") (dict_values (results st'))) ∧
    (∀ n : string, is_Some (dict_get n (results st)) ∨ n ∈ map fst cats →
                   is_Some (dict_get n (results st'))) ∧
    (∀ n : string, n ∉ map fst cats →
                   dict_get n (results st') = dict_get n (results st)).
Proof.
  intros Hwb. revert st. induction Hwb as [|[n f] cats Hf _ IH]; intros st.
  - exists st. split; [reflexivity|]. split; [auto|]. split; [|auto].
    intros n [?|Hin]; [assumption|]. cbn in Hin. by apply elem_of_nil in Hin.
  - destruct (run_category_returns n f st Hf) as (v & st_f & Hrun & Hflag & _).
    destruct (IH (set_results (dict_set n v (results st)) st_f))
      as (st' & Hrest & Hinv & Hkeys & Hother).
    exists st'. cbn [run_categories]. rewrite (bind_ok _ _ _ _ _ Hrun).
    split; [exact Hrest|]. cbn [results set_results] in *. split; [|split].
    + intros Hall. apply Hinv. by apply dict_set_values.
    + intros k Hk. apply Hkeys.
      destruct (decide (k = n)) as [->|Hne].
      * left. rewrite dict_get_set_eq. eauto.
      * destruct Hk as [Hk|Hk].
        -- left. rewrite dict_get_set_ne by congruence. exact Hk.
        -- right. cbn in Hk. apply elem_of_cons in Hk as [?|?]; [contradiction|assumption].
    + intros k Hk. cbn in Hk. apply not_elem_of_cons in Hk as [Hne Hk].
      rewrite Hother by exact Hk. apply dict_get_set_ne. congruence.
Qed.

End AggregatorFacts.

Section SummaryFacts.

Variable env : Env.

(** *** File system operations raise file system errors only *)

Lemma os_mkdir_raises (p : path) (f : gmap path node) (e : exn) :
  os_mkdir p f = Raise e → os_error e.
Proof.
  unfold os_mkdir.
  destruct (fs_lookup f (parent p)) as [[|?]|]; [destruct (fs_lookup f p)|..];
    intros [= <-]; exact I.
Qed.

Lemma mkdir_here_raises (exist_ok : bool) (p : path) (f : gmap path node) (e : exn) :
  mkdir_here exist_ok p f = Raise e → os_error e.
Proof.
  unfold mkdir_here. destruct (os_mkdir p f) as [f'|e'] eqn:E; [discriminate|].
  apply os_mkdir_raises in E.
  destruct e'; try contradiction; try (intros [= <-]; exact I);
    destruct (exist_ok && is_dir f p); intros [= <-]; exact I.
Qed.

Lemma mkdir_parents_raises (depth : nat) (exist_ok : bool) (p : path)
    (f : gmap path node) (e : exn) :
  mkdir_parents depth exist_ok p f = Raise e → os_error e.
Proof.
  revert exist_ok p f. induction depth as [|depth IH]; intros exist_ok p f;
    cbn [mkdir_parents];
    destruct (os_mkdir p f) as [f'|e'] eqn:E; try discriminate;
    apply os_mkdir_raises in E;
    destruct e'; try contradiction;
    try (destruct (exist_ok && is_dir f p); intros [= <-]; exact I).
  - destruct p; intros [= <-]; exact I.
  - destruct p as [|a p']; [intros [= <-]; exact I|].
    destruct (mkdir_parents depth true (parent (a :: p')) f) as [f1|e1] eqn:E1.
    + cbn. apply mkdir_here_raises.
    + cbn. intros [= <-]. eapply IH. exact E1.
Qed.

Lemma mkdir_raises (parents exist_ok : bool) (p : path) (f : gmap path node) (e : exn) :
  mkdir parents exist_ok p f = Raise e → os_error e.
Proof.
  unfold mkdir. destruct parents; [apply mkdir_parents_raises | apply mkdir_here_raises].
Qed.

Lemma write_file_raises (p : path) (c : content) (f : gmap path node) (e : exn) :
  write_file p c f = Raise e → os_error e.
Proof.
  unfold write_file.
  destruct (fs_lookup f (parent p)) as [[|?]|]; [destruct (fs_lookup f p) as [[|?]|]|..];
    intros [= <-]; exact I.
Qed.

Lemma write_file_ok (p : path) (c : content) (f f' : gmap path node) :
  write_file p c f = Ok f' → f' = <[p := File c]> f ∧ p ≠ [].
Proof.
  unfold write_file.
  destruct (fs_lookup f (parent p)) as [[|?]|]; try discriminate.
  destruct p as [|a p]; [discriminate|].
  destruct (fs_lookup f (a :: p)) as [[|?]|]; intros [= <-]; done.
Qed.

(** *** The summary *)

(** On results that all hold a boolean [passed], the summary is built without
    raising, and it says PASSED exactly when every flag is set. *)
Lemma build_summary_returns (rs : list (string * pyval)) :
  Forall (has_flag "passed") (dict_values rs) →
  ∃ (n : Z) (rate : pyval),
    let total := Z.of_nat (length rs) in
    build_summary env rs =
      Ok (VDict [("timestamp", VStr (timestamp env));
                 ("total_duration", VFloat (total_duration env));
                 ("total_categories", VInt total);
                 ("passed_categories", VInt n);
                 ("success_rate", rate);
                 ("overall_status", VStr (overall_status_of n total));
                 ("categories", VDict rs)]) ∧
    n = Z.of_nat (length (List.filter (flag_on "passed") (dict_values rs))) ∧
    0 ≤ n ≤ total ∧
    (n = total ↔ Forall (flag_set "passed") (dict_values rs)) ∧
    rate = (if 0 <? total then VFloat (inject_Z n / inject_Z total)%Q else VInt 0).
Proof.
  intros Hall.
  destruct (count_if_flags "passed" _ Hall) as (n & Hn & Hbound & Hiff).
  pose proof (count_if_counts "passed" _ Hall) as Hcount.
  assert (length (dict_values rs) = length rs) as Hlen by apply length_map.
  rewrite Hlen in Hbound, Hiff.
  exists n. eexists. cbn zeta. unfold build_summary. rewrite Hn. cbn.
  split; [|split; [congruence|split; [exact Hbound|split; [exact Hiff|reflexivity]]]].
  unfold truediv. destruct (0 <? Z.of_nat (length rs)) eqn:Hpos.
  - apply Z.ltb_lt in Hpos.
    destruct (Z.eqb_spec (Z.of_nat (length rs)) 0) as [?|_]; [lia|]. reflexivity.
  - reflexivity.
Qed.

(** With the summary built, [generate_summary_report] returns it once it is
    written, and can only fail on the file system. *)
Lemma generate_summary_report_cases (st : State) (s : pyval) :
  build_summary env (results st) = Ok s →
  (∃ st' : State,
      generate_summary_report env st = (Ok s, st') ∧
      results st' = results st ∧ trace st' = trace st ∧
      fs_lookup (fs st') report_file = Some (File (Json s)))
  ∨
  (∃ (e : exn) (st' : State),
      generate_summary_report env st = (Raise e, st') ∧ os_error e ∧
      results st' = results st ∧ trace st' = trace st).
Proof.
  intros Hs.
  destruct (generate_summary_report env st) as [out st_out] eqn:E.
  unfold generate_summary_report in E.
  rewrite bind_unfold in E. unfold read_results at 1 in E.
  rewrite bind_unfold in E. unfold lift at 1 in E. rewrite Hs in E.
  rewrite bind_unfold in E.
  destruct (fs_op (mkdir true true (parent report_file)) st) as [[[]|e] st1] eqn:E1;
    pose proof (fs_op_frame _ _ _ _ E1) as [Hr1 Ht1].
  - rewrite bind_unfold in E.
    destruct (fs_op (write_file report_file (Json s)) st1) as [[[]|e] st2] eqn:E2;
      pose proof (fs_op_frame _ _ _ _ E2) as [Hr2 Ht2];
      injection E as <- <-; unfold fs_op in E2;
      destruct (write_file report_file (Json s) (fs st1)) as [f2|e2] eqn:Ew;
      try discriminate.
    + left. exists st2. split; [reflexivity|].
      split; [congruence|]. split; [congruence|].
      injection E2 as <-. apply write_file_ok in Ew as [-> Hne]. cbn [fs set_fs].
      by apply fs_lookup_insert_eq.
    + right. exists e, st2. split; [reflexivity|].
      split; [|split; congruence].
      injection E2 as <- _. eapply write_file_raises. exact Ew.
  - injection E as <- <-.
    right. exists e, st1. split; [reflexivity|]. split; [|split; assumption].
    unfold fs_op in E1.
    destruct (mkdir true true (parent report_file) (fs st)) eqn:Em; [discriminate|].
    injection E1 as <- _. eapply mkdir_raises. exact Em.
Qed.

End SummaryFacts.

Section FullSuiteSummary.

Variable env : Env.

(** The loop of a full-suite run, started by a new runner, ends with every
    recorded result holding a boolean [passed]. *)
Lemma full_suite_results_flagged (fs0 : gmap path node) (st0 st1 : State) :
  fs_op (mkdir true true reports_dir) (new_runner fs0) = (Ok tt, st0) →
  run_categories env (test_categories env) st0 = (Ok tt, st1) →
  Forall (has_flag "passed") (dict_values (results st1)).
Proof.
  intros Hmk Hloop.
  apply fs_op_frame in Hmk as [Hres _].
  destruct (run_categories_returns env _ st0 (test_categories_well_behaved env))
    as (st' & Hrun & Hinv & _).
  rewrite Hloop in Hrun. injection Hrun as <-.
  apply Hinv. rewrite Hres. constructor.
Qed.

(** C1. In a full-suite run, the summary that [generate_summary_report]
    produces says PASSED if and only if every recorded category result has
    [passed == True], and if and only if [passed_categories] equals
    [total_categories]; its [categories] are the recorded results. *)
Theorem C1_overall_status_iff_all_passed
    (fs0 : gmap path node) (st0 st1 st2 : State) (summary : pyval) :
  fs_op (mkdir true true reports_dir) (new_runner fs0) = (Ok tt, st0) →
  run_categories env (test_categories env) st0 = (Ok tt, st1) →
  generate_summary_report env st1 = (Ok summary, st2) →
  getitem summary "categories" = Ok (VDict (results st1)) ∧
  (getitem summary "overall_status" = Ok (VStr "PASSED") ↔ all_passed (results st1)) ∧
  (getitem summary "overall_status" = Ok (VStr "PASSED") ↔
   getitem summary "passed_categories" = getitem summary "total_categories").
Proof.
  intros Hmk Hloop Hgen.
  pose proof (full_suite_results_flagged _ _ _ Hmk Hloop) as Hflags.
  destruct (build_summary_returns env _ Hflags)
    as (n & rate & Hbuild & _ & _ & Hiff & _). cbn zeta in Hbuild.
  destruct (generate_summary_report_cases env _ _ Hbuild)
    as [(st' & Hg & _) | (e & st' & Hg & _)];
    rewrite Hg in Hgen; [|discriminate].
  injection Hgen as <- <-. cbn [getitem dict_get String.eqb Ascii.eqb Bool.eqb].
  split; [reflexivity|].
  unfold all_passed, overall_status_of. rewrite <- Hiff.
  destruct (Z.eqb_spec n (Z.of_nat (length (results st1)))) as [Heq|Hne].
  - rewrite Heq. repeat split; auto.
  - split; (split; [discriminate|]); intros; congruence.
Qed.

End FullSuiteSummary.

Lemma C1_overall_status_witness :
  let env := env_exit 0 in
  let st0 := (fs_op (mkdir true true reports_dir) (new_runner fs_checkout)).2 in
  let st1 := (run_categories env (test_categories env) st0).2 in
  ∃ summary : pyval,
    (generate_summary_report env st1).1 = Ok summary ∧
    getitem summary "overall_status" = Ok (VStr "PASSED") ∧
    all_passed (results st1).
Proof.
  intros env st0 st1.
  assert (∃ s, (generate_summary_report env st1).1 = Ok s) as [s Hs]
    by (vm_compute; eauto).
  exists s. split; [exact Hs|].
  assert (getitem s "overall_status" = Ok (VStr "PASSED")) as Hstatus.
  { vm_compute in Hs. injection Hs as <-. reflexivity. }
  split; [exact Hstatus|].
  apply (C1_overall_status_iff_all_passed env fs_checkout st0 st1
           (generate_summary_report env st1).2 s); [..|exact Hstatus].
  - vm_compute. reflexivity.
  - vm_compute. reflexivity.
  - rewrite <- Hs. apply surjective_pairing.
Defined.

Section EmptySummary.

Variable env : Env.

Lemma mkdir_parents_present (depth : nat) (p : path) (f : gmap path node) :
  is_dir f (parent p) = true → is_dir f p = true →
  mkdir_parents depth true p f = Ok f.
Proof.
  unfold is_dir. intros Hparent Hp.
  destruct depth; cbn [mkdir_parents]; unfold os_mkdir, is_dir;
    destruct (fs_lookup f (parent p)) as [[|?]|]; try discriminate;
    destruct (fs_lookup f p) as [[|?]|]; try discriminate; reflexivity.
Qed.

(** C9. On a runner that has recorded no result, the summary is built
    without raising: zero categories, a success rate of 0 from the guarded
    division, and PASSED, since zero passed categories equal zero categories.
    [generate_summary_report] returns that summary, unless the file system
    refuses the report file; it does return it when [docs/coverage_report] is
    in place and the report path is not a directory. *)
Theorem C9_summary_of_no_results (f : gmap path node) (tr : list event) :
  let st := {| results := []; fs := f; trace := tr |} in
  build_summary env [] = Ok (empty_summary env) ∧
  getitem (empty_summary env) "total_categories" = Ok (VInt 0) ∧
  getitem (empty_summary env) "success_rate" = Ok (VInt 0) ∧
  getitem (empty_summary env) "overall_status" = Ok (VStr "PASSED") ∧
  ((∃ st' : State, generate_summary_report env st = (Ok (empty_summary env), st'))
   ∨ (∃ (e : exn) (st' : State),
         generate_summary_report env st = (Raise e, st') ∧ os_error e)) ∧
  (is_dir f ["docs"] = true → is_dir f reports_dir = true →
   is_dir f report_file = false →
   generate_summary_report env st =
     (Ok (empty_summary env),
      set_fs (<[report_file := File (Json (empty_summary env))]> f) st)).
Proof.
  intros st.
  assert (build_summary env (results st) = Ok (empty_summary env)) as Hbuild
    by reflexivity.
  split; [exact Hbuild|]. do 3 (split; [reflexivity|]). split.
  - destruct (generate_summary_report_cases env st _ Hbuild)
      as [(st' & Hg & _) | (e & st' & Hg & He & _)]; [left|right]; eauto.
  - intros Hdocs Hreports Hfile.
    unfold generate_summary_report.
    rewrite bind_unfold. unfold read_results at 1.
    rewrite bind_unfold. unfold lift at 1. rewrite Hbuild.
    rewrite bind_unfold. unfold fs_op at 1, mkdir.
    change (parent report_file) with reports_dir.
    rewrite mkdir_parents_present by assumption.
    rewrite bind_unfold. unfold fs_op at 1. cbn [fs set_fs st].
    rewrite write_file_new.
    + reflexivity.
    + change (parent report_file) with reports_dir.
      unfold is_dir in Hreports.
      destruct (fs_lookup f reports_dir) as [[|?]|]; congruence.
    + unfold is_dir in Hfile.
      destruct (fs_lookup f report_file) as [[|?]|]; congruence.
Qed.

End EmptySummary.

Lemma C9_summary_of_no_results_witness :
  ∃ st' : State,
    generate_summary_report (env_exit 0)
      {| results := []; fs := fs_with_reports; trace := [] |} =
    (Ok (empty_summary (env_exit 0)), st').
Proof.
  eexists.
  apply (C9_summary_of_no_results (env_exit 0) fs_with_reports []);
    vm_compute; reflexivity.
Defined.

Section FullSuiteLoop.

Variable env : Env.

Lemma test_categories_names : map fst (test_categories env) = choices.
Proof. reflexivity. Qed.

Lemma choices_NoDup : NoDup choices.
Proof. compute_done. Qed.

(** What follows the loop: with the summary built, the report phase prints it
    and returns whether it says PASSED, or fails on the file system while the
    report is written. *)
Lemma report_phase_cases (st : State) (s : pyval) (status : string) :
  build_summary env (results st) = Ok s →
  getitem s "overall_status" = Ok (VStr status) →
  (∃ st' : State,
      generate_summary_report env st = (Ok s, st') ∧
      report_phase env st =
        (Ok (String.eqb status "PASSED"), emit (EvFinalReport s) st'))
  ∨
  (∃ (e : exn) (st' : State),
      generate_summary_report env st = (Raise e, st') ∧
      report_phase env st = (Raise e, st') ∧ os_error e).
Proof.
  intros Hs Hstatus.
  destruct (generate_summary_report_cases env st s Hs)
    as [(st' & Hg & _) | (e & st' & Hg & He & _)]; [left|right].
  - exists st'. split; [exact Hg|].
    unfold report_phase. rewrite (bind_ok _ _ _ _ _ Hg).
    rewrite bind_unfold. unfold print_final_report at 1.
    rewrite bind_unfold. unfold lift at 1. rewrite Hstatus. reflexivity.
  - exists e, st'. split; [exact Hg|]. split; [|exact He].
    unfold report_phase. apply bind_raise. exact Hg.
Qed.

(** [run_full_suite] is its loop followed by the report phase. *)
Lemma run_full_suite_phases (st st0 st1 : State) :
  fs_op (mkdir true true reports_dir) st = (Ok tt, st0) →
  run_categories env (test_categories env) st0 = (Ok tt, st1) →
  run_full_suite env st = report_phase env st1.
Proof.
  intros Hmk Hloop. unfold run_full_suite.
  rewrite (bind_ok _ _ _ _ _ Hmk), (bind_ok _ _ _ _ _ Hloop). reflexivity.
Qed.

(** C3. When, in the loop of a full-suite run, the runner of a category
    raises, the loop stores for that category a record with [passed == False]
    and the text of the exception, goes on with the categories that follow
    and ends without raising; every category has a record at the end, the
    summary is built from them and says FAILED, and the run goes on to the
    report phase, which writes and prints the summary unless the file system
    refuses the report file. *)
Theorem C3_runner_exception_is_contained
    (fs0 : gmap path node) (pre post : list (string * M pyval))
    (name : string) (f : M pyval) (st0 stp stq : State) (e : exn) :
  fs_op (mkdir true true reports_dir) (new_runner fs0) = (Ok tt, st0) →
  test_categories env = (pre ++ (name, f) :: post)%list →
  run_categories env pre st0 = (Ok tt, stp) →
  f stp = (Raise e, stq) →
  let failed := error_result env name e in
  let st_rec := set_results (dict_set name failed (results stq)) stq in
  ∃ (st1 : State) (summary : pyval),
    run_category env name f stp = (Ok tt, st_rec) ∧
    getitem failed "passed" = Ok (VBool false) ∧
    getitem failed "error" = Ok (VStr (exn_str env e)) ∧
    run_categories env post st_rec = (Ok tt, st1) ∧
    run_categories env (test_categories env) st0 = (Ok tt, st1) ∧
    dict_get name (results st1) = Some failed ∧
    (∀ n : string, n ∈ choices → is_Some (dict_get n (results st1))) ∧
    build_summary env (results st1) = Ok summary ∧
    getitem summary "overall_status" = Ok (VStr "FAILED") ∧
    run_full_suite env (new_runner fs0) = report_phase env st1 ∧
    ((∃ st2 : State,
         generate_summary_report env st1 = (Ok summary, st2) ∧
         report_phase env st1 = (Ok false, emit (EvFinalReport summary) st2))
     ∨ (∃ (e' : exn) (st2 : State),
           generate_summary_report env st1 = (Raise e', st2) ∧
           report_phase env st1 = (Raise e', st2) ∧ os_error e')).
Proof.
  intros Hmk Hsplit Hpre Hf failed st_rec.
  pose proof (test_categories_well_behaved env) as Hwb.
  rewrite Hsplit in Hwb.
  apply Forall_app in Hwb as [Hwb_pre Hwb_rest].
  apply Forall_cons in Hwb_rest as [Hwb_f Hwb_post]. cbn [snd] in Hwb_f.
  assert (name ∉ map fst post) as Hfresh.
  { pose proof choices_NoDup as Hnd.
    rewrite <- test_categories_names, Hsplit, map_app in Hnd.
    apply NoDup_app in Hnd as (_ & _ & Hnd). cbn in Hnd.
    by apply NoDup_cons in Hnd as [? _]. }
  assert (run_category env name f stp = (Ok tt, st_rec)) as Hrec.
  { unfold run_category, try_except. rewrite Hf. reflexivity. }
  destruct (run_categories_returns env post st_rec Hwb_post)
    as (st1 & Hpost & _ & _ & Hother).
  assert (run_categories env (test_categories env) st0 = (Ok tt, st1)) as Hloop.
  { rewrite Hsplit, (run_categories_app env _ _ _ _ Hpre).
    cbn [run_categories]. rewrite (bind_ok _ _ _ _ _ Hrec). exact Hpost. }
  assert (dict_get name (results st1) = Some failed) as Hget.
  { rewrite (Hother _ Hfresh). apply dict_get_set_eq. }
  destruct (run_categories_returns env _ st0 (test_categories_well_behaved env))
    as (st1' & Hloop' & _ & Hkeys & _).
  rewrite Hloop in Hloop'. injection Hloop' as <-.
  pose proof (full_suite_results_flagged env _ _ _ Hmk Hloop) as Hflags.
  destruct (build_summary_returns env _ Hflags)
    as (n & rate & Hbuild & _ & _ & Hiff & _). cbn zeta in Hbuild.
  assert (overall_status_of n (Z.of_nat (length (results st1))) = "FAILED")
    as Hstatus.
  { unfold overall_status_of.
    destruct (Z.eqb_spec n (Z.of_nat (length (results st1)))) as [Heq|]; [|reflexivity].
    apply Hiff in Heq.
    pose proof (dict_get_values _ _ _ _ Heq Hget) as Hbad. discriminate Hbad. }
  rewrite Hstatus in Hbuild.
  eexists st1, _.
  split; [exact Hrec|]. split; [reflexivity|]. split; [reflexivity|].
  split; [exact Hpost|]. split; [exact Hloop|]. split; [exact Hget|].
  split.
  { intros k Hk. apply Hkeys. right. by rewrite test_categories_names. }
  split; [exact Hbuild|]. split; [reflexivity|].
  split; [by apply run_full_suite_phases with st0|].
  eapply (report_phase_cases st1 _ "FAILED" Hbuild). reflexivity.
Qed.

End FullSuiteLoop.

Lemma C3_runner_exception_witness :
  let env := env_exit 0 in
  let st0 := (fs_op (mkdir true true reports_dir) (new_runner ∅)).2 in
  let stp := (run_categories env [("code_quality", run_code_quality_checks env)] st0).2 in
  ∃ st1 : State,
    run_categories env (test_categories env) st0 = (Ok tt, st1) ∧
    dict_get "unit_tests" (results st1) =
      Some (error_result env "unit_tests" (FileNotFoundError unit_tests_dir)).
Proof.
  intros env st0 stp.
  destruct (C3_runner_exception_is_contained env ∅
              [("code_quality", run_code_quality_checks env)]
              (tail (tail (test_categories env)))
              "unit_tests" (run_unit_tests env) st0 stp stp
              (FileNotFoundError unit_tests_dir))
    as (st1 & summary & _ & _ & _ & _ & Hloop & Hget & _).
  - vm_compute. reflexivity.
  - reflexivity.
  - vm_compute. reflexivity.
  - vm_compute. reflexivity.
  - exists st1. split; [exact Hloop | exact Hget].
Defined.

Section ExitStatus.

Variable env : Env.

(** When the report phase returns, it has written and printed the summary
    of the recorded results, and returns whether all of them passed. *)
Lemma report_phase_returns (st st' : State) (success : bool) :
  Forall (has_flag "passed") (dict_values (results st)) →
  report_phase env st = (Ok success, st') →
  results st' = results st ∧
  (success = true ↔ all_passed (results st)) ∧
  ∃ summary : pyval,
    build_summary env (results st) = Ok summary ∧
    trace st' = (trace st ++ [EvFinalReport summary])%list ∧
    fs_lookup (fs st') report_file = Some (File (Json summary)) ∧
    (success = true ↔ getitem summary "overall_status" = Ok (VStr "PASSED")).
Proof.
  intros Hflags Hphase.
  destruct (build_summary_returns env _ Hflags)
    as (n & rate & Hbuild & _ & _ & Hiff & _). cbn zeta in Hbuild.
  unfold report_phase in Hphase. rewrite bind_unfold in Hphase.
  destruct (generate_summary_report_cases env st _ Hbuild)
    as [(st1 & Hg & Hres & Htr & Hfile) | (e & st1 & Hg & _)];
    rewrite Hg in Hphase; [|discriminate].
  rewrite bind_unfold in Hphase. unfold print_final_report at 1 in Hphase.
  rewrite bind_unfold in Hphase. unfold lift at 1 in Hphase.
  cbn [getitem dict_get String.eqb Ascii.eqb Bool.eqb] in Hphase.
  injection Hphase as <- <-.
  split; [exact Hres|].
  assert (eq_str (VStr (overall_status_of n (Z.of_nat (length (results st))))) "PASSED" = true
          ↔ n = Z.of_nat (length (results st))) as Hstatus.
  { unfold overall_status_of.
    destruct (Z.eqb_spec n (Z.of_nat (length (results st)))); cbn; split; congruence. }
  split; [unfold all_passed; rewrite Hstatus; exact Hiff|].
  eexists. split; [exact Hbuild|]. cbn [trace emit fs]. rewrite Htr.
  split; [reflexivity|]. split; [exact Hfile|].
  cbn [getitem dict_get String.eqb Ascii.eqb Bool.eqb]. rewrite Hstatus.
  unfold overall_status_of.
  destruct (Z.eqb_spec n (Z.of_nat (length (results st)))); split; congruence.
Qed.

(** A full-suite run that returns has run the loop and the report phase. *)
Lemma run_full_suite_returns (fs0 : gmap path node) (st : State) (success : bool) :
  run_full_suite env (new_runner fs0) = (Ok success, st) →
  ∃ st0 st1 : State,
    fs_op (mkdir true true reports_dir) (new_runner fs0) = (Ok tt, st0) ∧
    run_categories env (test_categories env) st0 = (Ok tt, st1) ∧
    report_phase env st1 = (Ok success, st).
Proof.
  intros Hrun.
  destruct (fs_op (mkdir true true reports_dir) (new_runner fs0))
    as [[[]|e] st0] eqn:Hmk.
  - destruct (run_categories_returns env _ st0 (test_categories_well_behaved env))
      as (st1 & Hloop & _).
    exists st0, st1. split; [reflexivity|]. split; [exact Hloop|].
    by rewrite <- (run_full_suite_phases env _ _ _ Hmk Hloop).
  - unfold run_full_suite in Hrun. rewrite (bind_raise _ _ _ _ _ Hmk) in Hrun.
    discriminate.
Qed.

(** Each name of the command line selects the runner of that category. *)
Lemma category_methods_lookup (c : string) :
  c ∈ choices →
  c ≠ "" ∧
  ∃ method : M pyval,
    dict_get c (category_methods env) = Some method ∧ well_behaved method.
Proof.
  intros Hc. unfold choices in Hc.
  repeat (apply elem_of_cons in Hc as [->|Hc];
          [split; [discriminate|]; eexists; split; [reflexivity|];
           first [ apply run_code_quality_checks_well_behaved
                 | apply run_unit_tests_well_behaved
                 | apply run_single_well_behaved ] |]).
  by apply elem_of_nil in Hc.
Qed.

(** [main] with a category of the list: the exit status is read off what the
    selected runner returns. *)
Lemma main_single_category (c : string) (method : M pyval) (fs0 : gmap path node) :
  c ∈ choices →
  dict_get c (category_methods env) = Some method →
  main env (Some c) fs0 =
  match method (new_runner fs0) with
  | (Ok result, st) =>
      match getitem result "passed" with
      | Ok success => (if truthy success then 0 else 1, st)
      | Raise _ => (1, st)
      end
  | (Raise _, st) => (1, st)
  end.
Proof.
  intros Hc Hm. destruct (category_methods_lookup c Hc) as [Hne _].
  unfold main, parse_args. rewrite bool_decide_eq_true_2 by exact Hc.
  unfold main_body. cbn [truthy].
  destruct (String.eqb_spec c "") as [?|_]; [contradiction|]. cbn [negb].
  rewrite Hm, bind_unfold.
  destruct (method (new_runner fs0)) as [[result|e] st]; [|reflexivity].
  unfold lift. destruct (getitem result "passed"); reflexivity.
Qed.

Lemma ignores_bind {A B : Type} (m : M A) (k : A → M B) :
  ignores_results m → (∀ a : A, ignores_results (k a)) →
  ignores_results (m ≫= k).
Proof.
  intros Hm Hk rs st. rewrite !bind_unfold, Hm.
  destruct (m st) as [[a|e] st']; cbn [fst snd]; [apply Hk | reflexivity].
Qed.

Lemma ignores_fs_op (op : gmap path node → result (gmap path node)) :
  ignores_results (fs_op op).
Proof.
  intros rs st. unfold fs_op. cbn [fs set_results].
  destruct (op (fs st)); reflexivity.
Qed.

Lemma ignores_run_command (cmd : list string) (name : string) (t : Z) :
  ignores_results (run_command env cmd name t).
Proof.
  intros rs st. unfold run_command. cbn [fs set_results].
  destruct (subprocess_run env cmd t (fs st)) as [[rc out err el| |msg] fs'];
    reflexivity.
Qed.

Lemma ignores_run_checks (cs : list (list string * string)) :
  ignores_results (run_checks env cs).
Proof.
  induction cs as [|[cmd name] cs IH]; [by intros rs st|].
  cbn [run_checks]. apply ignores_bind; [apply ignores_run_command|].
  intros r. apply ignores_bind; [exact IH|]. by intros rs' rs st.
Qed.

Lemma ignores_run_single (category : string) (cmd : list string) (name : string)
    (t : Z) :
  ignores_results (run_single env category cmd name t).
Proof.
  unfold run_single. apply ignores_bind; [apply ignores_run_command|].
  intros r. apply ignores_bind; [by intros rs st|]. by intros v rs st.
Qed.

Lemma ignores_run_code_quality_checks :
  ignores_results (run_code_quality_checks env).
Proof.
  unfold run_code_quality_checks. apply ignores_bind; [apply ignores_run_checks|].
  intros rs. apply ignores_bind; [by intros ? ?|].
  intros n. apply ignores_bind; [by intros ? ?|]. by intros v ? ?.
Qed.

Lemma ignores_run_unit_tests : ignores_results (run_unit_tests env).
Proof.
  unfold run_unit_tests, prepare_unit_tests.
  apply ignores_bind; [|intros []; apply ignores_run_single].
  apply ignores_bind; [apply ignores_fs_op|]. intros [].
  apply ignores_bind; [by intros ? ?|]. intros now.
  case_bool_decide; [apply ignores_fs_op | by intros ? ?].
Qed.

(** The seven runners keep to the rules of the aggregator and do not read
    the records. *)
Lemma test_categories_ignore_results :
  Forall (fun c => well_behaved c.2 ∧ ignores_results c.2) (test_categories env).
Proof.
  unfold test_categories.
  repeat (constructor;
          [split; [first [ apply run_code_quality_checks_well_behaved
                         | apply run_unit_tests_well_behaved
                         | apply run_single_well_behaved ]
                  |first [ apply ignores_run_code_quality_checks
                         | apply ignores_run_unit_tests
                         | apply ignores_run_single ]] |]).
  constructor.
Qed.

Lemma outcomes_ignore_results (cats : list (string * M pyval))
    (rs : list (string * pyval)) (st : State) :
  Forall (fun c => well_behaved c.2 ∧ ignores_results c.2) cats →
  outcomes env cats (set_results rs st) = outcomes env cats st.
Proof.
  intros Hcats. revert st. induction Hcats as [|[n f] cats [_ Hf] _ IH]; intros st.
  - reflexivity.
  - cbn [snd] in Hf. cbn [outcomes]. rewrite Hf. cbn [fst snd]. by rewrite IH.
Qed.

Lemma outcomes_keys (cats : list (string * M pyval)) (st : State) :
  dict_keys (outcomes env cats st) = map fst cats.
Proof.
  unfold dict_keys. revert st.
  induction cats as [|[n f] cats IH]; intros st; [reflexivity|].
  cbn [outcomes map fst]. by rewrite IH.
Qed.

Lemma dict_set_fresh {V : Type} (k : string) (v : V) (d : list (string * V)) :
  dict_get k d = None → dict_set k v d = (d ++ [(k, v)])%list.
Proof.
  induction d as [|[k' v'] d IH]; cbn; [reflexivity|].
  destruct (String.eqb k k'); [discriminate|].
  intros Hnone. by rewrite IH.
Qed.

(** The loop records, after what was recorded before, the outcome of each
    runner it is given, in order, when the names are new and distinct. *)
Lemma run_categories_outcomes (cats : list (string * M pyval)) (st st' : State) :
  Forall (fun c => well_behaved c.2 ∧ ignores_results c.2) cats →
  NoDup (map fst cats) →
  (∀ n : string, n ∈ map fst cats → dict_get n (results st) = None) →
  run_categories env cats st = (Ok tt, st') →
  results st' = (results st ++ outcomes env cats st)%list.
Proof.
  intros Hcats. revert st.
  induction Hcats as [|[n f] cats [Hwb Hf] Hrest IH]; intros st Hnd Hfresh.
  - intros [= <-]. cbn. by rewrite app_nil_r.
  - cbn [snd map fst] in *. apply NoDup_cons in Hnd as [Hn Hnd].
    destruct (run_category_returns env n f st Hwb) as (v & st_f & Hrun & _ & Hcase).
    cbn [run_categories]. rewrite (bind_ok _ _ _ _ _ Hrun). intros Hloop.
    apply IH in Hloop; [|exact Hnd|].
    + rewrite Hloop. cbn [results set_results outcomes].
      rewrite (outcomes_ignore_results _ _ _ Hrest).
      rewrite dict_set_fresh by (apply Hfresh; left).
      rewrite <- app_assoc. cbn [app].
      destruct Hcase as [-> | (e & -> & ->)]; reflexivity.
    + intros k Hk. cbn [results set_results].
      rewrite dict_get_set_ne by (intros ->; contradiction).
      apply Hfresh. by right.
Qed.

(** Among results that all hold a boolean [passed], either all passed or
    one failed. *)
Lemma not_all_passed (rs : list (string * pyval)) :
  Forall (has_flag "passed") (dict_values rs) →
  ¬ all_passed rs ↔ some_failed rs.
Proof.
  unfold all_passed, some_failed.
  induction 1 as [|r l [b Hb] _ IH].
  - split; [intros Hn; destruct Hn; constructor | intros Hex; inversion Hex].
  - rewrite Forall_cons, Exists_cons. unfold flag_set at 1. rewrite Hb.
    destruct b.
    + split.
      * intros Hn. right. apply IH. intros Hall. apply Hn. by split.
      * intros [[=]|Hex] [_ Hall]. by apply IH in Hex.
    + split; [by left | intros _ [[=] _]].
Qed.

(** C4. For a valid selection the exit status is 0 or 1.  In full-suite
    mode the records the run ends with are those of the seven categories, in
    their declared order, each the result its runner returned or the error
    record of what it raised; the status is 0 when [run_full_suite] returns
    [True], which it does exactly when the summary it printed says PASSED,
    that is when every one of these records has [passed == True], and it is
    1 when [run_full_suite] returns [False], which it does exactly when at
    least one of them has [passed == False].  For a single category the
    status is 0 when the [passed] flag of the runner's result is [True] and
    1 when it is [False].  A run that ends in an exception exits with 1. *)
Theorem C4_exit_status (category : option string) (fs0 : gmap path node) :
  (∀ c : string, category = Some c → c ∈ choices) →
  let out := main env category fs0 in
  (out.1 = 0 ∨ out.1 = 1) ∧
  match category with
  | None =>
      (∀ (success : bool) (st : State),
          run_full_suite env (new_runner fs0) = (Ok success, st) →
          out = (if success then 0 else 1, st) ∧
          results st = outcomes env (test_categories env) (suite_start fs0) ∧
          dict_keys (results st) = choices ∧
          (success = true ↔ all_passed (results st)) ∧
          (success = false ↔ some_failed (results st)) ∧
          ∃ summary : pyval,
            last (trace st) = Some (EvFinalReport summary) ∧
            getitem summary "categories" = Ok (VDict (results st)) ∧
            (success = true ↔
             getitem summary "overall_status" = Ok (VStr "PASSED")))
      ∧
      (∀ (e : exn) (st : State),
          run_full_suite env (new_runner fs0) = (Raise e, st) → out = (1, st))
  | Some c =>
      ∃ method : M pyval,
        dict_get c (category_methods env) = Some method ∧
        (∀ (result : pyval) (st : State),
            method (new_runner fs0) = (Ok result, st) →
            ∃ b : bool, getitem result "passed" = Ok (VBool b) ∧
                        out = (if b then 0 else 1, st)) ∧
        (∀ (e : exn) (st : State),
            method (new_runner fs0) = (Raise e, st) → out = (1, st))
  end.
Proof.
  intros Hvalid out. destruct category as [c|].
  - specialize (Hvalid c eq_refl).
    destruct (category_methods_lookup c Hvalid) as (_ & method & Hm & Hwb).
    pose proof (main_single_category c method fs0 Hvalid Hm) as Hmain.
    fold out in Hmain.
    destruct (method (new_runner fs0)) as [[result|e] st] eqn:E.
    + destruct (Hwb _ _ _ E) as [_ Hflag].
      destruct (Hflag result eq_refl) as [b Hb]. rewrite Hb in Hmain.
      cbn [truthy] in Hmain. split.
      * rewrite Hmain. destruct b; auto.
      * exists method. split; [exact Hm|]. split.
        -- intros r st' Hr. rewrite E in Hr. injection Hr as <- <-.
           exists b. split; [exact Hb | exact Hmain].
        -- intros e st' Hr. rewrite E in Hr. discriminate.
    + split; [rewrite Hmain; auto|].
      exists method. split; [exact Hm|]. split.
      * intros r st' Hr. rewrite E in Hr. discriminate.
      * intros e' st' Hr. rewrite E in Hr. injection Hr as <- <-. exact Hmain.
  - assert (out = match run_full_suite env (new_runner fs0) with
                  | (Ok success, st) => (if success then 0 else 1, st)
                  | (Raise _, st) => (1, st)
                  end) as Hmain.
    { subst out. unfold main, parse_args, main_body. cbn [truthy].
      rewrite bind_unfold.
      destruct (run_full_suite env (new_runner fs0)) as [[[|]|e] st]; reflexivity. }
    destruct (run_full_suite env (new_runner fs0)) as [[success|e] st] eqn:E.
    + split; [rewrite Hmain; destruct success; auto|]. split; [|intros e st' [=]].
      intros b st' [= <- <-]. split; [exact Hmain|].
      destruct (run_full_suite_returns fs0 st success E)
        as (st0 & st1 & Hmk & Hloop & Hphase).
      pose proof (full_suite_results_flagged env _ _ _ Hmk Hloop) as Hflags.
      destruct (report_phase_returns st1 st success Hflags Hphase)
        as (Hres & Hall & summary & Hbuild & Htr & _ & Hstatus).
      assert (results st1 = outcomes env (test_categories env) (suite_start fs0))
        as Hrecords.
      { pose proof (fs_op_frame _ _ _ _ Hmk) as [Hempty _]. cbn in Hempty.
        rewrite (run_categories_outcomes _ st0 st1 test_categories_ignore_results
                   choices_NoDup); [|by intros n _; rewrite Hempty|exact Hloop].
        rewrite Hempty. unfold suite_start. by rewrite Hmk. }
      rewrite Hres. split; [exact Hrecords|].
      split; [rewrite Hrecords; apply outcomes_keys|].
      split; [exact Hall|]. split.
      * rewrite <- (not_all_passed _ Hflags), <- Hall. by destruct success.
      * exists summary. split; [rewrite Htr; apply last_snoc|]. split; [|exact Hstatus].
        unfold build_summary in Hbuild.
        destruct (count_if "passed" (dict_values (results st1))) as [n|]; [|discriminate].
        cbn in Hbuild.
        destruct (0 <? Z.of_nat (length (results st1)));
          [destruct (truediv n (Z.of_nat (length (results st1)))); [|discriminate]|];
          cbn in Hbuild; injection Hbuild as <-; reflexivity.
    + split; [rewrite Hmain; auto|]. split; [intros b st' [=]|].
      intros e' st' [= <- <-]. exact Hmain.
Qed.

End ExitStatus.

Lemma C4_exit_status_witness :
  (main (env_exit 0) (Some "security_tests") fs_checkout).1 = 0 ∨
  (main (env_exit 0) (Some "security_tests") fs_checkout).1 = 1.
Proof.
  apply (C4_exit_status (env_exit 0) (Some "security_tests") fs_checkout).
  intros c [= <-]. compute_done.
Defined.

Section CommandLine.

Variable env : Env.

(** C5. A category name outside the list of choices ends the process with
    status 2, which is neither 0 nor 1, after a usage message: nothing was
    recorded, no command was launched and the file system is as it was. *)
Theorem C5_unknown_category_is_rejected (c : string) (fs0 : gmap path node) :
  c ∉ choices →
  let out := main env (Some c) fs0 in
  out.1 = 2 ∧ out.1 ≠ 0 ∧
  trace out.2 = [EvUsageError c] ∧
  launched out.2 = [] ∧
  results out.2 = [] ∧
  fs out.2 = fs0.
Proof.
  intros Hc out. subst out. unfold main, parse_args.
  rewrite bool_decide_eq_false_2 by exact Hc. cbn.
  repeat split. discriminate.
Qed.

Lemma mkdir_here_ok (exist_ok : bool) (p : path) (f f' : gmap path node) :
  mkdir_here exist_ok p f = Ok f' → f' = f ∨ f' = <[p := Dir]> f.
Proof.
  unfold mkdir_here, os_mkdir.
  destruct (fs_lookup f (parent p)) as [[|?]|]; try discriminate.
  - destruct (fs_lookup f p).
    + destruct (exist_ok && is_dir f p); [|discriminate]. intros [= <-]. by left.
    + intros [= <-]. by right.
  - destruct (exist_ok && is_dir f p); [|discriminate]. intros [= <-]. by left.
Qed.

(** Preparing the unit tests touches [tests/unit] and its basic test only. *)
Lemma prepare_unit_tests_touches (r : result unit) (st st' : State) (p : path) :
  prepare_unit_tests st = (r, st') →
  p ≠ unit_tests_dir → p ≠ basic_test →
  fs_lookup (fs st') p = fs_lookup (fs st) p.
Proof.
  intros Hprep Hp1 Hp2. unfold prepare_unit_tests in Hprep.
  rewrite bind_unfold in Hprep. unfold fs_op at 1 in Hprep.
  destruct (mkdir false true unit_tests_dir (fs st)) as [f1|e] eqn:Hmk.
  - assert (fs_lookup f1 p = fs_lookup (fs st) p) as H1.
    { apply mkdir_here_ok in Hmk as [->| ->]; [reflexivity|].
      apply fs_lookup_insert_ne. congruence. }
    rewrite bind_unfold in Hprep. unfold read_fs at 1 in Hprep.
    cbn [fs set_fs] in Hprep.
    case_bool_decide.
    + unfold fs_op in Hprep. cbn [fs set_fs] in Hprep.
      destruct (write_file basic_test (Text basic_test_text) f1) as [f2|e] eqn:Hw;
        injection Hprep as <- <-; cbn [fs set_fs]; [|exact H1].
      apply write_file_ok in Hw as [-> _].
      rewrite fs_lookup_insert_ne by congruence. exact H1.
    + injection Hprep as <- <-. exact H1.
  - injection Hprep as <- <-. reflexivity.
Qed.

(** C8 as the code has it. With [--category=unit_tests] only the unit test
    runner runs: at most one command is launched, the [pytest] command of the
    unit tests.  Nothing is recorded in [self.results], no summary is built,
    printed or written: the report file is what it was when the command was
    launched, or when the preparation of the unit tests failed. *)
Theorem C8_single_category_runs_alone (fs0 : gmap path node) :
  let out := main env (Some "unit_tests") fs0 in
  results out.2 = [] ∧
  printed_summaries out.2 = [] ∧
  (launched out.2 = [] ∨ launched out.2 = [unit_tests_cmd]) ∧
  ∃ (r : result unit) (stp : State),
    prepare_unit_tests (new_runner fs0) = (r, stp) ∧
    fs_lookup (fs stp) report_file = fs_lookup fs0 report_file ∧
    match r with
    | Ok _ => out.2 = after_spawn env unit_tests_cmd default_timeout stp
    | Raise _ => out = (1, stp)
    end.
Proof.
  intros out.
  assert ("unit_tests" ∈ choices) as Hc by compute_done.
  pose proof (main_single_category env "unit_tests" (run_unit_tests env) fs0
                Hc eq_refl) as Hmain.
  fold out in Hmain.
  destruct (run_unit_tests_cases env (new_runner fs0))
    as [(e & st' & Hprep & Hrun & Hres & Htr)
       |(stp & res & b & Hprep & Hres & Htr & _ & _ & Hrun)];
    rewrite Hrun in Hmain; cbn in Hmain; rewrite Hmain; cbn [snd].
  - split; [exact Hres|].
    unfold printed_summaries, launched. rewrite Htr.
    split; [reflexivity|]. split; [by left|].
    exists (Raise e), st'. split; [exact Hprep|]. split; [|reflexivity].
    by apply (prepare_unit_tests_touches _ _ _ _ Hprep).
  - split; [exact Hres|].
    unfold printed_summaries, launched. cbn [trace after_spawn set_fs emit].
    rewrite Htr. split; [reflexivity|]. split; [by right|].
    exists (Ok tt), stp. split; [exact Hprep|]. split; [|reflexivity].
    by apply (prepare_unit_tests_touches _ _ _ _ Hprep).
Qed.

End CommandLine.

Lemma C5_unknown_category_witness :
  (main (env_exit 0) (Some "smoke_tests") fs_checkout).1 = 2.
Proof.
  apply (C5_unknown_category_is_rejected (env_exit 0) "smoke_tests" fs_checkout).
  compute_done.
Defined.

(** A passing run of [--category=unit_tests] in a checkout without an earlier
    report: the one command is launched and the process exits with 0, but
    there is no summary with one entry: none was printed, none is on disk,
    and the runner has recorded no result. *)
Lemma C8_no_summary_counterexample :
  let out := main (env_exit 0) (Some "unit_tests") fs_checkout in
  out.1 = 0 ∧
  launched out.2 = [unit_tests_cmd] ∧
  printed_summaries out.2 = [] ∧
  report_entries out.2 = None ∧
  length (results out.2) = 0%nat.
Proof. vm_compute. repeat split. Qed.

Section CategoryResults.

Variable env : Env.

(** C2 as the code has it. When the child process exceeds the timeout,
    [run_command] returns a result with [success == False], a [duration]
    equal to the timeout and [error == "Timeout"]; it has no [return_code],
    and no [timed_out] key either: the timeout is told by the [error] text. *)
Theorem C2_timeout_result (cmd : list string) (name : string) (timeout : Z)
    (st : State) (fs' : gmap path node) :
  subprocess_run env cmd timeout (fs st) = (TimeoutExpired, fs') →
  ∃ r : pyval,
    run_command env cmd name timeout st =
      (Ok r, set_fs fs' (emit (EvSpawn cmd timeout) st)) ∧
    r = VDict [("name", VStr name);
               ("success", VBool false);
               ("duration", VInt timeout);
               ("error", VStr "Timeout")] ∧
    getitem r "success" = Ok (VBool false) ∧
    getitem r "duration" = Ok (VInt timeout) ∧
    getitem r "error" = Ok (VStr "Timeout") ∧
    contains r "return_code" = false ∧
    contains r "timed_out" = false.
Proof.
  intros Hrun. eexists. unfold run_command. rewrite Hrun.
  split; [reflexivity|]. repeat split.
Qed.

Lemma single_command_runner_cases (c : string) (f : M pyval) :
  (c, f) ∈ single_command_runners env →
  (c = "unit_tests" ∧ f = run_unit_tests env) ∨
  (∃ (cmd : list string) (name : string) (t : Z), f = run_single env c cmd name t).
Proof.
  unfold single_command_runners, test_categories. cbn [tail]. intros Hin.
  apply elem_of_cons in Hin as [[= -> ->]|Hin]; [by left|]. right.
  repeat (apply elem_of_cons in Hin as [[= -> ->]|Hin];
          [eexists _, _, _; reflexivity|]).
  by apply elem_of_nil in Hin.
Qed.

Lemma prepare_unit_tests_raises (st st' : State) (e : exn) :
  prepare_unit_tests st = (Raise e, st') → os_error e.
Proof.
  unfold prepare_unit_tests. rewrite bind_unfold. unfold fs_op at 1.
  destruct (mkdir false true unit_tests_dir (fs st)) as [f1|e1] eqn:Hmk.
  - rewrite bind_unfold. unfold read_fs at 1. case_bool_decide; [|discriminate].
    unfold fs_op.
    destruct (write_file basic_test (Text basic_test_text) (fs (set_fs f1 st)))
      as [f2|e2] eqn:Hw; [discriminate|].
    intros [= <- _]. by apply write_file_raises in Hw.
  - intros [= <- _]. by apply mkdir_raises in Hmk.
Qed.

(** C6. The quality runner launches its six tools in order and returns;
    with [n] the number of their results whose [success] is [True], its
    result has [success_rate == n / 6] and [passed == (n == 6)].  Each of the
    six other runners, when it returns, has launched exactly one command, and
    the [passed] of its result is the [success] of that command's result; five
    of them always return, and the unit test runner returns unless preparing
    its files failed, before any command was launched. *)
Theorem C6_quality_rate_and_single_commands :
  (∀ st : State,
      ∃ (rs : list pyval) (r : pyval) (st' : State),
        let n := Z.of_nat (length (List.filter (flag_on "success") rs)) in
        let total := Z.of_nat (length rs) in
        run_checks env checks st = (Ok rs, st') ∧
        length rs = length checks ∧
        Forall (has_flag "success") rs ∧
        trace st' = (trace st ++ spawns checks)%list ∧
        run_code_quality_checks env st = (Ok r, st') ∧
        getitem r "results" = Ok (VList rs) ∧
        getitem r "success_rate" = Ok (VFloat (inject_Z n / inject_Z total)%Q) ∧
        getitem r "passed" = Ok (VBool (n =? total)))
  ∧
  (∀ (c : string) (f : M pyval) (st st' : State) (r : pyval),
      (c, f) ∈ single_command_runners env →
      f st = (Ok r, st') →
      ∃ (cmd : list string) (t : Z) (res : pyval),
        trace st' = (trace st ++ [EvSpawn cmd t])%list ∧
        getitem r "results" = Ok (VList [res]) ∧
        has_flag "success" res ∧
        getitem r "passed" = getitem res "success")
  ∧
  (∀ (c : string) (f : M pyval) (st : State),
      (c, f) ∈ single_command_runners env →
      (∃ (r : pyval) (st' : State), f st = (Ok r, st')) ∨
      (c = "unit_tests" ∧
       ∃ (e : exn) (st' : State),
         f st = (Raise e, st') ∧ os_error e ∧ trace st' = trace st)).
Proof.
  split; [|split].
  - intros st.
    destruct (run_code_quality_checks_returns env st)
      as (rs & st' & Hrs & Hlen & Hall & Hq & _ & Htr).
    cbn zeta in Hq. eexists rs, _, st'. cbn zeta. rewrite Hlen.
    split; [exact Hrs|]. split; [reflexivity|]. split; [exact Hall|].
    split; [exact Htr|]. split; [exact Hq|]. repeat split.
  - intros c f st st' r Hin Hf.
    destruct (single_command_runner_cases c f Hin)
      as [[-> ->] | (cmd & name & t & ->)].
    + destruct (run_unit_tests_cases env st)
        as [(e & st1 & _ & Hr & _) | (stp & res & b & _ & _ & Htr & _ & Hb & Hr)];
        rewrite Hr in Hf; [discriminate|]. injection Hf as <- <-.
      exists unit_tests_cmd, default_timeout, res.
      cbn [trace after_spawn set_fs emit]. rewrite Htr.
      split; [reflexivity|]. split; [reflexivity|]. split; [by exists b|].
      rewrite Hb. reflexivity.
    + destruct (run_single_returns env c cmd name t st) as (res & b & _ & Hb & Hr).
      rewrite Hr in Hf. injection Hf as <- <-.
      exists cmd, t, res.
      split; [reflexivity|]. split; [reflexivity|]. split; [by exists b|].
      rewrite Hb. reflexivity.
  - intros c f st Hin.
    destruct (single_command_runner_cases c f Hin)
      as [[-> ->] | (cmd & name & t & ->)].
    + destruct (run_unit_tests_cases env st)
        as [(e & st1 & Hprep & Hr & _ & Htr) | (stp & res & b & _ & _ & _ & _ & _ & Hr)].
      * right. split; [reflexivity|]. exists e, st1.
        split; [exact Hr|]. split; [|exact Htr].
        by apply prepare_unit_tests_raises in Hprep.
      * left. eauto.
    + left. destruct (run_single_returns env c cmd name t st) as (res & b & _ & _ & Hr).
      eauto.
Qed.

(** C7 as the code has it. The result of the quality runner holds a float
    [success_rate] between 0 and 1; the results of the six other runners hold
    no [success_rate] at all. *)
Theorem C7_success_rate_of_quality_only :
  (∀ st : State,
      ∃ (r : pyval) (st' : State) (q : Q),
        run_code_quality_checks env st = (Ok r, st') ∧
        getitem r "success_rate" = Ok (VFloat q) ∧
        (0 <= q)%Q ∧ (q <= 1)%Q)
  ∧
  (∀ (c : string) (f : M pyval) (st st' : State) (r : pyval),
      (c, f) ∈ single_command_runners env →
      f st = (Ok r, st') →
      contains r "success_rate" = false ∧
      getitem r "success_rate" = Raise (KeyError "success_rate")).
Proof.
  split.
  - intros st.
    destruct (run_code_quality_checks_returns env st)
      as (rs & st' & _ & Hlen & _ & Hq & _).
    cbn zeta in Hq. eexists _, st', _. split; [exact Hq|].
    split; [reflexivity|].
    pose proof (List.filter_length_le (flag_on "success") rs) as Hle.
    rewrite Hlen in Hle.
    unfold Qle, Qdiv, Qmult, Qinv, inject_Z. cbn. lia.
  - intros c f st st' r Hin Hf.
    destruct (single_command_runner_cases c f Hin)
      as [[-> ->] | (cmd & name & t & ->)].
    + destruct (run_unit_tests_cases env st)
        as [(e & st1 & _ & Hr & _) | (stp & res & b & _ & _ & _ & _ & _ & Hr)];
        rewrite Hr in Hf; [discriminate|]. injection Hf as <- <-.
      split; reflexivity.
    + destruct (run_single_returns env c cmd name t st) as (res & b & _ & _ & Hr).
      rewrite Hr in Hf. injection Hf as <- <-. split; reflexivity.
Qed.

End CategoryResults.

Lemma C2_timeout_result_witness :
  ∃ r : pyval,
    (run_command env_timeout performance_tests_cmd "Performance Tests" 120
       (new_runner fs_checkout)).1 = Ok r ∧
    getitem r "duration" = Ok (VInt 120) ∧
    getitem r "error" = Ok (VStr "Timeout").
Proof.
  destruct (C2_timeout_result env_timeout performance_tests_cmd
              "Performance Tests" 120 (new_runner fs_checkout) fs_checkout)
    as (r & Hrun & _ & _ & Hduration & Herror & _).
  - reflexivity.
  - exists r. rewrite Hrun. repeat split; assumption.
Defined.

(** The performance command runs into its timeout of 120 seconds: the
    result says [success == False], but reading [timed_out] from it raises
    [KeyError], so it does not say [timed_out == True]. *)
Lemma C2_no_timed_out_counterexample :
  ∃ r : pyval,
    (run_command env_timeout performance_tests_cmd "Performance Tests" 120
       (new_runner fs_checkout)).1 = Ok r ∧
    getitem r "success" = Ok (VBool false) ∧
    getitem r "timed_out" = Raise (KeyError "timed_out") ∧
    getitem r "timed_out" ≠ Ok (VBool true).
Proof. eexists. repeat split. discriminate. Qed.

Lemma C6_single_command_witness :
  ∃ (r res : pyval) (st' : State),
    run_functional_tests (env_exit 1) (new_runner fs_checkout) = (Ok r, st') ∧
    getitem r "results" = Ok (VList [res]) ∧
    getitem r "passed" = getitem res "success".
Proof.
  destruct (C6_quality_rate_and_single_commands (env_exit 1)) as (_ & Hsingle & _).
  destruct (Hsingle "functional_tests" (run_functional_tests (env_exit 1))
              (new_runner fs_checkout)
              (run_functional_tests (env_exit 1) (new_runner fs_checkout)).2
              (VDict [("category", VStr "functional_tests");
                      ("results",
                       VList [VDict [("name", VStr "Functional Tests");
                                     ("success", VBool false);
                                     ("duration", VFloat 1);
                                     ("stdout", VStr "");
                                     ("stderr", VStr "");
                                     ("return_code", VInt 1)]]);
                      ("passed", VBool false)]))
    as (cmd & t & res & _ & Hres & _ & Hpassed).
  - apply list_elem_of_further, list_elem_of_here.
  - reflexivity.
  - eexists _, res, _. split; [reflexivity|]. split; assumption.
Defined.

Lemma C7_success_rate_witness :
  ∃ (r : pyval) (st' : State),
    run_security_tests (env_exit 0) (new_runner fs_checkout) = (Ok r, st') ∧
    contains r "success_rate" = false.
Proof.
  destruct (C7_success_rate_of_quality_only (env_exit 0)) as (_ & Hsingle).
  eexists _, _. split; [reflexivity|].
  eapply (Hsingle "security_tests" (run_security_tests (env_exit 0))
            (new_runner fs_checkout)).
  - do 5 apply list_elem_of_further. apply list_elem_of_here.
  - reflexivity.
Defined.

(** The functional test runner returns a result that holds no
    [success_rate]: reading it raises [KeyError]. *)
Lemma C7_no_success_rate_counterexample :
  ∃ (r : pyval) (st' : State),
    run_functional_tests (env_exit 0) (new_runner fs_checkout) = (Ok r, st') ∧
    getitem r "passed" = Ok (VBool true) ∧
    contains r "success_rate" = false ∧
    getitem r "success_rate" = Raise (KeyError "success_rate").
Proof. eexists _, _. repeat split. Qed.

Section UnitTestFiles.

Variable env : Env.

Lemma mkdir_here_exist_ok (p : path) (f f' : gmap path node) :
  mkdir_here true p f = Ok f' →
  (is_dir f p = true ∧ f' = f) ∨ (fs_lookup f p = None ∧ f' = <[p := Dir]> f).
Proof.
  unfold mkdir_here, os_mkdir.
  destruct (fs_lookup f (parent p)) as [[|?]|]; try discriminate.
  - destruct (fs_lookup f p) eqn:E.
    + cbn [andb]. destruct (is_dir f p); [|discriminate]. intros [= <-]. by left.
    + intros [= <-]. by right.
  - cbn [andb]. destruct (is_dir f p); [|discriminate]. intros [= <-]. by left.
Qed.

(** Whenever the preparation of the unit tests succeeds, it has left the
    file system prepared, and has changed nothing else of the state. *)
Lemma prepare_unit_tests_effect (st stp : State) :
  prepare_unit_tests st = (Ok tt, stp) →
  stp = set_fs (fs stp) st ∧ unit_tests_prepared (fs st) (fs stp).
Proof.
  destruct st as [rs f tr]. cbn [fs].
  assert (glob_hit unit_tests_dir "test_*.py" basic_test = true) as Hhit
    by (vm_compute; reflexivity).
  assert (basic_test ≠ unit_tests_dir) as Hne by discriminate.
  assert (unit_tests_dir ≠ []) as Hne' by discriminate.
  unfold prepare_unit_tests. rewrite bind_unfold. unfold fs_op at 1. cbn [fs].
  destruct (mkdir false true unit_tests_dir f) as [f1|e] eqn:Hmk; [|discriminate].
  assert (fs_lookup f1 unit_tests_dir = Some Dir ∧
          glob unit_tests_dir "test_*.py" f1 = glob unit_tests_dir "test_*.py" f ∧
          ∀ p : path, p ≠ unit_tests_dir → fs_lookup f1 p = fs_lookup f p)
    as (Hdir1 & Hglob1 & Hframe1).
  { apply mkdir_here_exist_ok in Hmk as [[Hdir ->] | [_ ->]].
    - split; [|done]. unfold is_dir in Hdir.
      destruct (fs_lookup f unit_tests_dir) as [[|?]|]; congruence.
    - split; [by apply fs_lookup_insert_eq|]. split; [by apply glob_insert_dir|].
      intros p Hp. apply fs_lookup_insert_ne. congruence. }
  rewrite bind_unfold. unfold read_fs at 1. cbn [set_fs fs]. rewrite Hglob1.
  unfold unit_tests_prepared, is_dir.
  case_bool_decide as Hglob.
  - pose proof (glob_empty_fs_lookup _ _ _ _ Hglob Hhit) as Hnone.
    unfold fs_op. cbn [fs]. rewrite write_file_new.
    + intros [= <-]. cbn [fs set_fs]. split; [reflexivity|].
      rewrite fs_lookup_insert_ne by assumption. rewrite Hdir1.
      repeat split.
      * intros _. by apply fs_lookup_insert_eq.
      * intros; contradiction.
      * intros p Hp1 Hp2. rewrite fs_lookup_insert_ne by congruence. by apply Hframe1.
    + exact Hdir1.
    + rewrite Hframe1 by assumption. rewrite Hnone. discriminate.
  - intros [= <-]. cbn [fs set_fs]. split; [reflexivity|]. rewrite Hdir1.
    repeat split.
    + intros; contradiction.
    + intros _. by apply Hframe1.
    + intros p Hp1 _. by apply Hframe1.
Qed.

(** C10. The unit test runner prepares its files before it launches its
    command.  The preparation succeeds when [tests/] is a directory and
    [tests/unit] is absent or a directory.  Whenever it succeeds, [tests/unit]
    is a directory afterwards; if it held no entry matching [test_*.py],
    [tests/unit/test_basic.py] now holds the basic test, and otherwise that
    path is left alone; no other path changes; and the [pytest] command is
    launched in the file system so prepared.  When it fails, no command is
    launched.  The runner does this wherever it is called from: by [main]
    under [--category=unit_tests], on a new runner, and by the loop of the
    full suite, in the state that the quality category leaves. *)
Theorem C10_unit_tests_prepare_files (st : State) :
  (is_dir (fs st) ["tests"] = true →
   (exists_ (fs st) unit_tests_dir = true → is_dir (fs st) unit_tests_dir = true) →
   ∃ stp : State, prepare_unit_tests st = (Ok tt, stp))
  ∧
  (∀ stp : State,
      prepare_unit_tests st = (Ok tt, stp) →
      stp = set_fs (fs stp) st ∧
      unit_tests_prepared (fs st) (fs stp) ∧
      run_unit_tests env st =
        run_single env "unit_tests" unit_tests_cmd "Unit Tests" default_timeout stp ∧
      (run_unit_tests env st).2 =
        set_fs (subprocess_run env unit_tests_cmd default_timeout (fs stp)).2
          (emit (EvSpawn unit_tests_cmd default_timeout) st))
  ∧
  (∀ (e : exn) (stp : State),
      prepare_unit_tests st = (Raise e, stp) →
      os_error e ∧ run_unit_tests env st = (Raise e, stp) ∧ trace stp = trace st)
  ∧
  (st = new_runner (fs st) →
   (main env (Some "unit_tests") (fs st)).2 = (run_unit_tests env st).2)
  ∧
  (∀ st0 : State,
      run_category env "code_quality" (run_code_quality_checks env) st0 = (Ok tt, st) →
      run_categories env (test_categories env) st0 =
        (run_category env "unit_tests" (run_unit_tests env);;
         run_categories env (drop 2 (test_categories env))) st).
Proof.
  split; [|split; [|split; [|split]]].
  - intros Htests Hunit.
    by apply prepare_unit_tests_succeeds.
  - intros stp Hprep.
    destruct (prepare_unit_tests_effect st stp Hprep) as [Hstp Hprepared].
    split; [exact Hstp|]. split; [exact Hprepared|].
    assert (run_unit_tests env st =
            run_single env "unit_tests" unit_tests_cmd "Unit Tests" default_timeout
              stp) as Hrun.
    { unfold run_unit_tests. by rewrite (bind_ok _ _ _ _ _ Hprep). }
    split; [exact Hrun|].
    destruct (run_single_returns env "unit_tests" unit_tests_cmd "Unit Tests"
                default_timeout stp) as (res & b & _ & _ & Hsingle).
    rewrite Hrun, Hsingle. cbn [snd]. rewrite Hstp at 1. reflexivity.
  - intros e stp Hprep.
    split; [by apply prepare_unit_tests_raises in Hprep|].
    split; [by apply bind_raise|].
    by apply prepare_unit_tests_frame in Hprep as [_ ?].
  - intros Hnew_runner.
    assert ("unit_tests" ∈ choices) as Hc by compute_done.
    rewrite (main_single_category env "unit_tests" (run_unit_tests env) (fs st)
               Hc eq_refl).
    rewrite <- Hnew_runner.
    destruct (run_unit_tests env st) as [[r|e] st'] eqn:Hrun; [|reflexivity].
    destruct (run_unit_tests_well_behaved env _ _ _ Hrun) as [_ Hflag].
    destruct (Hflag r eq_refl) as [b ->]. reflexivity.
  - intros st0 Hquality.
    unfold test_categories at 1. cbn [run_categories].
    rewrite (bind_ok _ _ _ _ _ Hquality). reflexivity.
Qed.

End UnitTestFiles.

Lemma C10_unit_tests_prepare_witness :
  fs_lookup (fs (main (env_exit 0) (Some "unit_tests") fs_checkout).2) basic_test =
  Some (File (Text basic_test_text)).
Proof.
  destruct (C10_unit_tests_prepare_files (env_exit 0) (new_runner fs_checkout))
    as (Hsucceeds & Heffect & _ & Hmain & _).
  destruct Hsucceeds as [stp Hprep].
  - vm_compute. reflexivity.
  - vm_compute. intros [=].
  - destruct (Heffect stp Hprep) as (_ & (_ & Hnew & _) & _ & Hlaunch).
    change (fs (new_runner fs_checkout)) with fs_checkout in *.
    rewrite (Hmain eq_refl), Hlaunch. cbn [fs set_fs env_exit subprocess_run snd].
    apply Hnew. vm_compute. reflexivity.
Defined.

Section DeclaredOrder.

Variable env : Env.

(** One turn of the loop, for a runner that keeps to the rules: it never
    raises, stores one record under the category's name, and otherwise leaves
    the state as the runner left it. *)
Lemma run_category_step (name : string) (f : M pyval) (st : State) :
  well_behaved f →
  ∃ v : pyval,
    run_category env name f st =
      (Ok tt, set_results (dict_set name v (results st)) (f st).2) ∧
    has_flag "passed" v ∧
    ((f st).1 = Ok v ∨ ∃ e : exn, (f st).1 = Raise e ∧ v = error_result env name e).
Proof.
  intros Hf.
  destruct (run_category_returns env name f st Hf) as (v & st_f & Hrun & Hflag & Hcase).
  exists v. split; [|split; [exact Hflag|]].
  - rewrite Hrun. destruct Hcase as [-> | (e & -> & _)]; reflexivity.
  - destruct Hcase as [-> | (e & -> & ->)]; [by left | right; by exists e].
Qed.

Lemma dict_set_keys_fresh {V : Type} (k : string) (v : V) (d : list (string * V)) :
  dict_get k d = None → dict_keys (dict_set k v d) = (dict_keys d ++ [k])%list.
Proof.
  unfold dict_keys. induction d as [|[k' v'] d IH]; cbn; [reflexivity|].
  destruct (String.eqb k k'); [discriminate|].
  intros Hnone. cbn. by rewrite IH.
Qed.

(** The loop records the categories in the order it is given them, after
    what was recorded before, when their names are new and distinct. *)
Lemma run_categories_keys (cats : list (string * M pyval)) (st st' : State) :
  Forall (fun c => well_behaved c.2) cats →
  NoDup (map fst cats) →
  (∀ n : string, n ∈ map fst cats → dict_get n (results st) = None) →
  run_categories env cats st = (Ok tt, st') →
  dict_keys (results st') = (dict_keys (results st) ++ map fst cats)%list.
Proof.
  intros Hwb. revert st. induction Hwb as [|[n f] cats Hf _ IH]; intros st Hnd Hfresh.
  - intros [= <-]. cbn. by rewrite app_nil_r.
  - cbn [map fst] in Hnd, Hfresh. apply NoDup_cons in Hnd as [Hn Hnd].
    destruct (run_category_step n f st Hf) as (v & Hrun & _).
    cbn [run_categories]. rewrite (bind_ok _ _ _ _ _ Hrun). intros Hrest.
    apply IH in Hrest; [|exact Hnd|].
    + rewrite Hrest. cbn [results set_results].
      rewrite dict_set_keys_fresh by (apply Hfresh; left).
      cbn [map fst]. by rewrite <- app_assoc.
    + intros k Hk. cbn [results set_results].
      rewrite dict_get_set_ne by (intros ->; contradiction).
      apply Hfresh. by right.
Qed.

(** In a full-suite run started by a new runner, the recorded categories
    are the seven of the list, in its order. *)
Lemma full_suite_keys (fs0 : gmap path node) (st0 st1 : State) :
  fs_op (mkdir true true reports_dir) (new_runner fs0) = (Ok tt, st0) →
  run_categories env (test_categories env) st0 = (Ok tt, st1) →
  dict_keys (results st1) = choices ∧ Z.of_nat (length (results st1)) = 7.
Proof.
  intros Hmk Hloop.
  pose proof (fs_op_frame _ _ _ _ Hmk) as [Hres _]. cbn in Hres.
  assert (dict_keys (results st1) = choices) as Hkeys.
  { rewrite (run_categories_keys _ st0 st1 (test_categories_well_behaved env)
               choices_NoDup); [by rewrite Hres| |exact Hloop].
    intros n _. by rewrite Hres. }
  split; [exact Hkeys|].
  apply (f_equal (@length string)) in Hkeys.
  unfold dict_keys in Hkeys. rewrite length_map in Hkeys. by rewrite Hkeys.
Qed.

(** X2. The loop of a full-suite run started by a new runner records the
    seven categories in their declared order, whichever of them fail, and
    the summary built from them lists them in that order. *)
Theorem full_suite_keeps_declared_order (fs0 : gmap path node) (st0 st1 : State) :
  fs_op (mkdir true true reports_dir) (new_runner fs0) = (Ok tt, st0) →
  run_categories env (test_categories env) st0 = (Ok tt, st1) →
  dict_keys (results st1) = choices ∧
  ∃ (summary : pyval) (categories : list (string * pyval)),
    build_summary env (results st1) = Ok summary ∧
    getitem summary "categories" = Ok (VDict categories) ∧
    dict_keys categories = choices ∧
    getitem summary "total_categories" = Ok (VInt 7).
Proof.
  intros Hmk Hloop.
  destruct (full_suite_keys fs0 st0 st1 Hmk Hloop) as [Hkeys Hlen].
  split; [exact Hkeys|].
  pose proof (full_suite_results_flagged env _ _ _ Hmk Hloop) as Hflags.
  destruct (build_summary_returns env _ Hflags) as (n & rate & Hbuild & _).
  cbn zeta in Hbuild. rewrite Hlen in Hbuild.
  eexists _, (results st1). split; [exact Hbuild|]. split; [reflexivity|].
  split; [exact Hkeys|reflexivity].
Qed.

End DeclaredOrder.

Lemma full_suite_keeps_declared_order_witness :
  let env := env_exit 1 in
  let st0 := (fs_op (mkdir true true reports_dir) (new_runner ∅)).2 in
  let st1 := (run_categories env (test_categories env) st0).2 in
  dict_keys (results st1) = choices.
Proof.
  intros env st0 st1.
  apply (full_suite_keeps_declared_order env ∅ st0 st1); vm_compute; reflexivity.
Defined.

Section CommandSequence.

Variable env : Env.

Lemma run_category_trace (name : string) (f : M pyval) (st : State) (evs : list event) :
  well_behaved f →
  trace (f st).2 = (trace st ++ evs)%list →
  ∃ st' : State,
    run_category env name f st = (Ok tt, st') ∧
    trace st' = (trace st ++ evs)%list.
Proof.
  intros Hf Htr. destruct (run_category_step env name f st Hf) as (v & Hrun & _).
  eexists. split; [exact Hrun|]. exact Htr.
Qed.

Lemma run_single_trace (category : string) (cmd : list string) (name : string)
    (t : Z) (st : State) :
  trace (run_single env category cmd name t st).2 = (trace st ++ [EvSpawn cmd t])%list.
Proof.
  destruct (run_single_returns env category cmd name t st) as (res & b & _ & _ & ->).
  reflexivity.
Qed.

Lemma run_single_spawn_only (category : string) (cmd : list string)
    (name : string) (t : Z) :
  spawn_only (run_single env category cmd name t).
Proof.
  intros st. exists [EvSpawn cmd t]. split; [apply run_single_trace|].
  by repeat constructor.
Qed.

Lemma run_unit_tests_spawn_only : spawn_only (run_unit_tests env).
Proof.
  intros st.
  destruct (run_unit_tests_cases env st)
    as [(e & st' & _ & Hr & _ & Htr) | (stp & res & b & _ & _ & Htr & _ & _ & Hr)];
    rewrite Hr; cbn [snd].
  - exists []. rewrite app_nil_r. split; [exact Htr|constructor].
  - exists [EvSpawn unit_tests_cmd default_timeout]. cbn. rewrite Htr.
    split; [reflexivity|by repeat constructor].
Qed.

Lemma run_code_quality_checks_spawn_only : spawn_only (run_code_quality_checks env).
Proof.
  intros st.
  destruct (run_code_quality_checks_returns env st)
    as (rs & st' & _ & _ & _ & Hr & _ & Htr). cbn zeta in Hr.
  rewrite Hr. exists (spawns checks). split; [exact Htr|by repeat constructor].
Qed.

Lemma test_categories_spawn_only :
  Forall (fun c => well_behaved c.2 ∧ spawn_only c.2) (test_categories env).
Proof.
  unfold test_categories.
  repeat (constructor;
          [split; [first [ apply run_code_quality_checks_well_behaved
                         | apply run_unit_tests_well_behaved
                         | apply run_single_well_behaved ]
                  |first [ apply run_code_quality_checks_spawn_only
                         | apply run_unit_tests_spawn_only
                         | apply run_single_spawn_only ]] |]).
  constructor.
Qed.

(** A loop over runners that only launch commands only launches commands. *)
Lemma run_categories_spawn_only (cats : list (string * M pyval)) (st : State) :
  Forall (fun c => well_behaved c.2 ∧ spawn_only c.2) cats →
  ∃ (st' : State) (evs : list event),
    run_categories env cats st = (Ok tt, st') ∧
    trace st' = (trace st ++ evs)%list ∧
    Forall (fun ev => is_spawn ev = true) evs.
Proof.
  intros Hcats. revert st.
  induction Hcats as [|[n f] cats [Hwb Hf] _ IH]; intros st.
  - exists st, []. rewrite app_nil_r. split; [reflexivity|]. split; [reflexivity|constructor].
  - cbn [snd] in *. destruct (Hf st) as (evs1 & Htr1 & Hev1).
    destruct (run_category_trace n f st evs1 Hwb Htr1) as (st1 & Hrun & Htr1').
    destruct (IH st1) as (st' & evs2 & Hrest & Htr2 & Hev2).
    exists st', (evs1 ++ evs2)%list. cbn [run_categories].
    rewrite (bind_ok _ _ _ _ _ Hrun). split; [exact Hrest|].
    split; [by rewrite Htr2, Htr1', app_assoc|by apply Forall_app].
Qed.

(** X3. The loop of a full-suite run launches, in
    this order, the six quality tools, the unit tests unless preparing their
    files failed, then the functional, integration, contract, performance and
    security tests, whatever the earlier ones did; every command is given 300
    seconds but the performance one, which is given 120.  No unit test command
    is launched exactly when the record of the unit tests is an error record. *)
Theorem full_suite_command_sequence (st0 : State) :
  ∃ (st1 : State) (unit_spawn : list event),
    run_categories env (test_categories env) st0 = (Ok tt, st1) ∧
    (unit_spawn = [] ∨ unit_spawn = [EvSpawn unit_tests_cmd 300]) ∧
    trace st1 = (trace st0 ++ spawns checks ++ unit_spawn ++ later_spawns)%list ∧
    (unit_spawn = [] ↔
     ∃ e : exn, dict_get "unit_tests" (results st1) =
                  Some (error_result env "unit_tests" e)).
Proof.
  unfold test_categories. cbn [run_categories].
  (* quality *)
  destruct (run_category_step env "code_quality" (run_code_quality_checks env) st0
              (run_code_quality_checks_well_behaved env)) as (vq & Hq & _).
  destruct (run_code_quality_checks_returns env st0)
    as (rs & stq' & _ & _ & _ & Hqrun & _ & Hqtr). cbn zeta in Hqrun.
  rewrite Hqrun in Hq. cbn [snd] in Hq.
  rewrite (bind_ok _ _ _ _ _ Hq).
  set (stq := set_results _ stq') in *.
  assert (trace stq = (trace st0 ++ spawns checks)%list) as Htq by exact Hqtr.
  clearbody stq. clear Hq Hqrun Hqtr.
  (* unit tests *)
  destruct (run_category_step env "unit_tests" (run_unit_tests env) stq
              (run_unit_tests_well_behaved env)) as (vu & Hu & _ & Hucase).
  rewrite (bind_ok _ _ _ _ _ Hu).
  set (stu := set_results _ _) in *.
  assert (∃ unit_spawn : list event,
             (unit_spawn = [] ∨ unit_spawn = [EvSpawn unit_tests_cmd 300]) ∧
             trace stu = (trace stq ++ unit_spawn)%list ∧
             (unit_spawn = [] ↔ ∃ e : exn, vu = error_result env "unit_tests" e))
    as (unit_spawn & Hshape & Htu & Hiff).
  { subst stu. cbn [trace set_results].
    destruct (run_unit_tests_cases env stq)
      as [(e & st' & _ & Hr & _ & Htr) | (stp & res & b & _ & _ & Htr & _ & _ & Hr)];
      rewrite Hr in Hucase |- *; cbn [fst snd] in *.
    - exists []. split; [by left|]. rewrite app_nil_r. split; [exact Htr|].
      split; [intros _|reflexivity].
      destruct Hucase as [[=]|(e' & [= <-] & ->)]. by exists e.
    - exists [EvSpawn unit_tests_cmd 300]. split; [by right|].
      split; [cbn; by rewrite Htr|].
      split; [intros [=]|].
      destruct Hucase as [[= <-]|(e' & [=] & _)]. intros (e & [=]). }
  assert (dict_get "unit_tests" (results stu) = Some vu) as Hgu
    by (subst stu; apply dict_get_set_eq).
  clearbody stu. clear Hu Hucase.
  (* the five that follow *)
  destruct (run_category_trace "functional_tests" (run_functional_tests env) stu _
              (run_single_well_behaved env _ _ _ _) (run_single_trace _ _ _ _ stu))
    as (s3 & H3 & T3).
  destruct (run_category_trace "integration_tests" (run_integration_tests env) s3 _
              (run_single_well_behaved env _ _ _ _) (run_single_trace _ _ _ _ s3))
    as (s4 & H4 & T4).
  destruct (run_category_trace "contract_tests" (run_contract_tests env) s4 _
              (run_single_well_behaved env _ _ _ _) (run_single_trace _ _ _ _ s4))
    as (s5 & H5 & T5).
  destruct (run_category_trace "performance_tests" (run_performance_tests env) s5 _
              (run_single_well_behaved env _ _ _ _) (run_single_trace _ _ _ _ s5))
    as (s6 & H6 & T6).
  destruct (run_category_trace "security_tests" (run_security_tests env) s6 _
              (run_single_well_behaved env _ _ _ _) (run_single_trace _ _ _ _ s6))
    as (s7 & H7 & T7).
  assert (run_categories env (drop 2 (test_categories env)) stu = (Ok tt, s7)) as Hrest.
  { unfold test_categories. cbn [drop run_categories].
    rewrite (bind_ok _ _ _ _ _ H3), (bind_ok _ _ _ _ _ H4), (bind_ok _ _ _ _ _ H5),
      (bind_ok _ _ _ _ _ H6), (bind_ok _ _ _ _ _ H7). reflexivity. }
  unfold test_categories in Hrest. cbn [drop run_categories] in Hrest.
  rewrite Hrest.
  exists s7, unit_spawn. split; [reflexivity|]. split; [exact Hshape|].
  split.
  - rewrite T7, T6, T5, T4, T3, Htu, Htq. unfold later_spawns, default_timeout.
    rewrite <- !app_assoc. reflexivity.
  - rewrite Hiff.
    assert (dict_get "unit_tests" (results s7) = Some vu) as ->; [|split].
    + pose proof (test_categories_well_behaved env) as Hwb.
      do 2 apply Forall_cons in Hwb as [_ Hwb].
      destruct (run_categories_returns env _ stu Hwb) as (s7' & Hrest' & _ & _ & Hother).
      cbn [run_categories] in Hrest'. rewrite Hrest in Hrest'. injection Hrest' as <-.
      rewrite Hother; [exact Hgu|]. cbn. compute_done.
    + intros [e ->]. by exists e.
    + intros [e [= ->]]. by exists e.
Qed.

End CommandSequence.

Section SummaryOnDisk.

Variable env : Env.

(** X4. The summary of a full-suite run counts seven categories; its
    [passed_categories] is the number of recorded results whose [passed] is
    [True], between 0 and 7; its [success_rate] is that number over 7, between
    0 and 1; and it says PASSED exactly when the number is 7. *)
Theorem full_suite_summary_counts (fs0 : gmap path node) (st0 st1 : State)
    (summary : pyval) :
  fs_op (mkdir true true reports_dir) (new_runner fs0) = (Ok tt, st0) →
  run_categories env (test_categories env) st0 = (Ok tt, st1) →
  build_summary env (results st1) = Ok summary →
  let n := Z.of_nat (length (List.filter (flag_on "passed") (dict_values (results st1)))) in
  getitem summary "total_categories" = Ok (VInt 7) ∧
  getitem summary "passed_categories" = Ok (VInt n) ∧
  0 ≤ n ≤ 7 ∧
  getitem summary "success_rate" = Ok (VFloat (inject_Z n / inject_Z 7)%Q) ∧
  (0 <= inject_Z n / inject_Z 7)%Q ∧ (inject_Z n / inject_Z 7 <= 1)%Q ∧
  (getitem summary "overall_status" = Ok (VStr "PASSED") ↔ n = 7).
Proof.
  intros Hmk Hloop Hsum n.
  pose proof (full_suite_results_flagged env _ _ _ Hmk Hloop) as Hflags.
  destruct (full_suite_keys env _ _ _ Hmk Hloop) as [Hkeys Hlen].
  destruct (build_summary_returns env _ Hflags)
    as (n' & rate & Hbuild & Hn & Hbound & _ & Hrate).
  cbn zeta in Hbuild, Hbound, Hrate. rewrite Hlen in Hbuild, Hbound, Hrate.
  fold n in Hn. subst n'. rewrite Hbuild in Hsum. injection Hsum as <-.
  cbn in Hrate. subst rate.
  split; [reflexivity|]. split; [reflexivity|]. split; [exact Hbound|].
  split; [reflexivity|].
  split; [|split].
  - unfold Qle, Qdiv, Qmult, Qinv, inject_Z. cbn. lia.
  - unfold Qle, Qdiv, Qmult, Qinv, inject_Z. cbn. lia.
  - cbn. unfold overall_status_of.
    destruct (Z.eqb_spec n 7); split; congruence.
Qed.

(** X5. A full-suite run that returns has printed exactly one summary, as
    the last thing it did, and has left that same summary in the report file;
    the summary lists the seven recorded categories. *)
Theorem full_suite_report_is_written (fs0 : gmap path node) (st : State)
    (success : bool) :
  run_full_suite env (new_runner fs0) = (Ok success, st) →
  ∃ summary : pyval,
    printed_summaries st = [summary] ∧
    last (trace st) = Some (EvFinalReport summary) ∧
    fs_lookup (fs st) report_file = Some (File (Json summary)) ∧
    getitem summary "categories" = Ok (VDict (results st)) ∧
    dict_keys (results st) = choices ∧
    report_entries st = Some 7%nat.
Proof.
  intros Hrun.
  destruct (run_full_suite_returns env fs0 st success Hrun)
    as (st0 & st1 & Hmk & Hloop & Hphase).
  pose proof (full_suite_results_flagged env _ _ _ Hmk Hloop) as Hflags.
  destruct (report_phase_returns env st1 st success Hflags Hphase)
    as (Hres & _ & summary & Hbuild & Htr & Hfile & _).
  destruct (full_suite_keys env _ _ _ Hmk Hloop) as [Hkeys Hlen].
  assert (getitem summary "categories" = Ok (VDict (results st1))) as Hcats.
  { destruct (build_summary_returns env _ Hflags) as (n & rate & Hbuild' & _).
    cbn zeta in Hbuild'. rewrite Hbuild in Hbuild'. by injection Hbuild' as ->. }
  destruct (run_categories_spawn_only env _ st0 (test_categories_spawn_only env))
    as (st1' & evs & Hloop' & Htr1 & Hspawns).
  rewrite Hloop in Hloop'. injection Hloop' as <-.
  exists summary. rewrite Hres.
  split; [|split; [|split; [exact Hfile|split; [exact Hcats|split; [exact Hkeys|]]]]].
  - unfold printed_summaries. rewrite Htr, Htr1.
    pose proof (fs_op_frame _ _ _ _ Hmk) as [_ ->]. cbn [trace new_runner app].
    rewrite omap_app. cbn.
    replace (omap _ evs) with (@nil pyval); [reflexivity|].
    clear -Hspawns. induction Hspawns as [|[] evs Hev _ IH]; try discriminate; done.
  - rewrite Htr. apply last_snoc.
  - unfold report_entries. rewrite Hfile, Hcats. f_equal. lia.
Qed.

End SummaryOnDisk.

Lemma full_suite_summary_counts_witness :
  let env := env_exit 0 in
  let st0 := (fs_op (mkdir true true reports_dir) (new_runner ∅)).2 in
  let st1 := (run_categories env (test_categories env) st0).2 in
  ∃ summary : pyval,
    build_summary env (results st1) = Ok summary ∧
    getitem summary "passed_categories" = Ok (VInt 6) ∧
    getitem summary "total_categories" = Ok (VInt 7).
Proof.
  intros env st0 st1.
  assert (∃ s, build_summary env (results st1) = Ok s) as [s Hs]
    by (vm_compute; eauto).
  exists s. split; [exact Hs|].
  destruct (full_suite_summary_counts env ∅ st0 st1 s) as (Htotal & Hpassed & _).
  - vm_compute. reflexivity.
  - vm_compute. reflexivity.
  - exact Hs.
  - split; [|exact Htotal]. rewrite Hpassed. vm_compute. reflexivity.
Defined.

Lemma full_suite_report_is_written_witness :
  report_entries (run_full_suite (env_exit 0) (new_runner fs_checkout)).2 = Some 7%nat.
Proof.
  destruct (full_suite_report_is_written (env_exit 0) fs_checkout
              (run_full_suite (env_exit 0) (new_runner fs_checkout)).2 true)
    as (summary & _ & _ & _ & _ & _ & Hentries).
  - vm_compute. reflexivity.
  - exact Hentries.
Defined.

Section ExitZero.

Variable env : Env.

Lemma run_command_success (cmd : list string) (name : string) (t : Z)
    (st st' : State) (r : pyval) :
  run_command env cmd name t st = (Ok r, st') →
  flag_set "success" r → exited_zero r.
Proof.
  unfold run_command, flag_set, exited_zero.
  destruct (subprocess_run env cmd t (fs st)) as [[rc out err el| |msg] fs'];
    intros [= <- _]; cbn; try discriminate.
  destruct (Z.eqb_spec rc 0) as [->|]; [reflexivity|discriminate].
Qed.

Lemma run_single_honest (category : string) (cmd : list string) (name : string)
    (t : Z) :
  honest_runner (run_single env category cmd name t).
Proof.
  intros st st' r Hr.
  destruct (run_single_returns env category cmd name t st) as (res & b & Hrun & Hb & Hs).
  rewrite Hs in Hr. injection Hr as <- <-.
  intros Hpassed. injection Hpassed as ->.
  exists [res]. split; [reflexivity|]. split; [discriminate|].
  constructor; [|constructor].
  by apply (run_command_success _ _ _ _ _ _ Hrun).
Qed.

Lemma run_unit_tests_honest : honest_runner (run_unit_tests env).
Proof.
  intros st st' r Hr. unfold run_unit_tests in Hr. rewrite bind_unfold in Hr.
  destruct (prepare_unit_tests st) as [[[]|e] stp]; [|discriminate].
  by apply run_single_honest in Hr.
Qed.

Lemma run_checks_success (cs : list (list string * string)) (st st' : State)
    (rs : list pyval) :
  run_checks env cs st = (Ok rs, st') →
  Forall (fun r => flag_set "success" r → exited_zero r) rs.
Proof.
  revert st st' rs. induction cs as [|[cmd name] cs IH]; intros st st' rs.
  - cbn. intros [= <- _]. constructor.
  - cbn [run_checks]. rewrite bind_unfold.
    destruct (run_command env cmd name default_timeout st) as [[r|e] st1] eqn:Hr;
      [|discriminate].
    rewrite bind_unfold.
    destruct (run_checks env cs st1) as [[rs'|e] st2] eqn:Hrs; [|discriminate].
    intros [= <- _]. constructor; [|by eapply IH].
    by apply (run_command_success _ _ _ _ _ _ Hr).
Qed.

Lemma filter_all {A : Type} (p : A → bool) (l : list A) :
  length (List.filter p l) = length l → Forall (fun x => p x = true) l.
Proof.
  induction l as [|x l IH]; cbn; [constructor|].
  pose proof (List.filter_length_le p l) as Hle.
  destruct (p x) eqn:E; cbn; [|lia].
  intros [= Hlen]. constructor; auto.
Qed.

Lemma run_code_quality_checks_honest : honest_runner (run_code_quality_checks env).
Proof.
  intros st st' r Hr.
  destruct (run_code_quality_checks_returns env st)
    as (rs & st1 & Hrs & Hlen & _ & Hq & _). cbn zeta in Hq.
  rewrite Hq in Hr. injection Hr as <- <-.
  intros Hpassed. injection Hpassed as Hn. apply Z.eqb_eq in Hn.
  exists rs. split; [reflexivity|]. split; [by destruct rs|].
  pose proof (run_checks_success _ _ _ _ Hrs) as Hsuccess.
  assert (Forall (fun r => flag_on "success" r = true) rs) as Hall.
  { apply filter_all. rewrite Hlen. lia. }
  rewrite Forall_forall in Hsuccess, Hall |- *. intros res Hin.
  apply Hsuccess; [exact Hin|]. specialize (Hall res Hin).
  unfold flag_on in Hall. unfold flag_set.
  destruct (getitem res "success") as [[| [|] | | | | |]|]; congruence.
Qed.

(** The loop keeps any property of the recorded results that the error
    records have and that the runners' results have. *)
Lemma run_categories_invariant (P : pyval → Prop) (cats : list (string * M pyval))
    (st st' : State) :
  (∀ (n : string) (e : exn), P (error_result env n e)) →
  Forall (fun c => well_behaved c.2 ∧
                   ∀ (s s' : State) (r : pyval), c.2 s = (Ok r, s') → P r) cats →
  Forall P (dict_values (results st)) →
  run_categories env cats st = (Ok tt, st') →
  Forall P (dict_values (results st')).
Proof.
  intros Herr Hcats. revert st.
  induction Hcats as [|[n f] cats [Hwb Hf] _ IH]; intros st Hst.
  - by intros [= <-].
  - cbn [snd] in *. cbn [run_categories].
    destruct (run_category_step env n f st Hwb) as (v & Hrun & _ & Hcase).
    rewrite (bind_ok _ _ _ _ _ Hrun). apply IH. cbn [results set_results].
    apply dict_set_values; [exact Hst|].
    destruct Hcase as [Hok | (e & _ & ->)]; [|apply Herr].
    eapply Hf. rewrite <- Hok. apply surjective_pairing.
Qed.

Lemma test_categories_honest :
  Forall (fun c => well_behaved c.2 ∧
                   ∀ (s s' : State) (r : pyval), c.2 s = (Ok r, s') → honest r)
         (test_categories env).
Proof.
  unfold test_categories.
  repeat (constructor;
          [split; [first [ apply run_code_quality_checks_well_behaved
                         | apply run_unit_tests_well_behaved
                         | apply run_single_well_behaved ]
                  |first [ apply run_code_quality_checks_honest
                         | apply run_unit_tests_honest
                         | apply run_single_honest ]] |]).
  constructor.
Qed.

Lemma category_methods_honest (c : string) :
  c ∈ choices →
  ∃ method : M pyval,
    dict_get c (category_methods env) = Some method ∧ honest_runner method.
Proof.
  intros Hc. unfold choices in Hc.
  repeat (apply elem_of_cons in Hc as [->|Hc];
          [eexists; split; [reflexivity|];
           first [ apply run_code_quality_checks_honest
                 | apply run_unit_tests_honest
                 | apply run_single_honest ] |]).
  by apply elem_of_nil in Hc.
Qed.

(** X6. Exit status 0 is earned: it means that every command of the
    selected scope completed with return code 0.  After a full suite that
    exits with 0, all seven categories are recorded and each lists commands
    that all returned 0; after a single category that exits with 0, the
    category was a valid one and the result of its runner lists commands
    that all returned 0.  No timeout, launch failure, non-zero return code or
    failed preparation goes unnoticed. *)
Theorem exit_zero_means_commands_exited_zero
    (category : option string) (fs0 : gmap path node) (st : State) :
  main env category fs0 = (0, st) →
  match category with
  | None =>
      dict_keys (results st) = choices ∧
      Forall commands_exited_zero (dict_values (results st))
  | Some c =>
      c ∈ choices ∧ results st = [] ∧
      ∃ (method : M pyval) (result : pyval),
        dict_get c (category_methods env) = Some method ∧
        method (new_runner fs0) = (Ok result, st) ∧
        commands_exited_zero result
  end.
Proof.
  intros Hmain. destruct category as [c|].
  - destruct (decide (c ∈ choices)) as [Hc|Hc].
    + split; [exact Hc|].
      destruct (category_methods_honest c Hc) as (method & Hm & Hhonest).
      destruct (category_methods_lookup env c Hc) as (_ & method' & Hm' & Hwb).
      rewrite Hm in Hm'. injection Hm' as <-.
      rewrite (main_single_category env c method fs0 Hc Hm) in Hmain.
      destruct (method (new_runner fs0)) as [[result|e] st'] eqn:E; [|discriminate].
      destruct (Hwb _ _ _ E) as [Hres Hflag].
      destruct (Hflag result eq_refl) as [b Hb]. rewrite Hb in Hmain.
      destruct b; [|discriminate]. injection Hmain as <-.
      split; [exact Hres|]. exists method, result.
      split; [exact Hm|]. split; [exact E|]. by apply (Hhonest _ _ _ E).
    + unfold main, parse_args in Hmain.
      rewrite bool_decide_eq_false_2 in Hmain by exact Hc. discriminate.
  - unfold main, parse_args, main_body in Hmain. cbn [truthy] in Hmain.
    rewrite bind_unfold in Hmain.
    destruct (run_full_suite env (new_runner fs0)) as [[[|]|e] st'] eqn:E;
      try discriminate.
    injection Hmain as <-.
    destruct (run_full_suite_returns env fs0 st' true E)
      as (st0 & st1 & Hmk & Hloop & Hphase).
    pose proof (full_suite_results_flagged env _ _ _ Hmk Hloop) as Hflags.
    destruct (report_phase_returns env st1 st' true Hflags Hphase)
      as (Hres & Hall & _).
    destruct (full_suite_keys env _ _ _ Hmk Hloop) as [Hkeys _].
    rewrite Hres. split; [exact Hkeys|].
    assert (Forall honest (dict_values (results st1))) as Hhonest.
    { apply (run_categories_invariant honest (test_categories env) st0 st1).
      - intros n e [=].
      - apply test_categories_honest.
      - apply fs_op_frame in Hmk as [-> _]. constructor.
      - exact Hloop. }
    apply proj1 in Hall. specialize (Hall eq_refl). unfold all_passed in Hall.
    rewrite Forall_forall in Hall, Hhonest |- *.
    intros r Hin. apply (Hhonest r Hin). exact (Hall r Hin).
Qed.

End ExitZero.

Lemma exit_zero_witness :
  Forall commands_exited_zero
    (dict_values (results (main (env_exit 0) None fs_checkout).2)).
Proof.
  apply (exit_zero_means_commands_exited_zero (env_exit 0) None fs_checkout
           (main (env_exit 0) None fs_checkout).2).
  vm_compute. reflexivity.
Defined.

Section HealthyRun.

Variable env : Env.

Hypothesis Htools : tools_pass env.

Lemma run_command_passes (cmd : list string) (name : string) (t : Z) (st : State) :
  healthy (fs st) →
  ∃ (r : pyval) (st' : State),
    run_command env cmd name t st = (Ok r, st') ∧
    flag_set "success" r ∧ healthy (fs st').
Proof.
  intros Hh. destruct (Htools cmd t (fs st) Hh) as [(out & err & el & Hzero) Hh'].
  unfold run_command.
  destruct (subprocess_run env cmd t (fs st)) as [outcome fs'].
  cbn [fst snd] in Hzero, Hh'. subst outcome.
  eexists _, _. split; [reflexivity|]. split; [reflexivity|exact Hh'].
Qed.

Lemma run_single_passes (category : string) (cmd : list string) (name : string)
    (t : Z) :
  passes_when_healthy (run_single env category cmd name t).
Proof.
  intros st Hh.
  destruct (run_command_passes cmd name t st Hh) as (r & st' & Hrun & Hsuccess & Hh').
  unfold run_single. rewrite (bind_ok _ _ _ _ _ Hrun).
  rewrite bind_unfold. unfold lift at 1. rewrite Hsuccess.
  eexists _, _. split; [reflexivity|]. split; [reflexivity|exact Hh'].
Qed.

Lemma prepare_unit_tests_healthy (st : State) :
  healthy (fs st) →
  ∃ stp : State, prepare_unit_tests st = (Ok tt, stp) ∧ healthy (fs stp).
Proof.
  intros (Htests & Hunit & Hdocs & Hreports & Hfile).
  destruct (prepare_unit_tests_succeeds st Htests Hunit) as [stp Hprep].
  exists stp. split; [exact Hprep|].
  destruct (prepare_unit_tests_effect st stp Hprep)
    as (_ & Hdir & _ & _ & Hframe).
  unfold healthy, is_dir in *.
  rewrite (Hframe ["tests"]), (Hframe ["docs"]), (Hframe reports_dir),
    (Hframe report_file) by discriminate.
  repeat split; try assumption. intros _. exact Hdir.
Qed.

Lemma run_unit_tests_passes : passes_when_healthy (run_unit_tests env).
Proof.
  intros st Hh.
  destruct (prepare_unit_tests_healthy st Hh) as (stp & Hprep & Hhp).
  unfold run_unit_tests. rewrite (bind_ok _ _ _ _ _ Hprep).
  by apply run_single_passes.
Qed.

Lemma run_checks_pass (cs : list (list string * string)) (st : State) :
  healthy (fs st) →
  ∃ (rs : list pyval) (st' : State),
    run_checks env cs st = (Ok rs, st') ∧
    Forall (flag_set "success") rs ∧ healthy (fs st').
Proof.
  revert st. induction cs as [|[cmd name] cs IH]; intros st Hh.
  - exists [], st. split; [reflexivity|]. split; [constructor|exact Hh].
  - destruct (run_command_passes cmd name default_timeout st Hh)
      as (r & st1 & Hr & Hsuccess & Hh1).
    destruct (IH st1 Hh1) as (rs & st2 & Hrs & Hall & Hh2).
    exists (r :: rs), st2. cbn [run_checks].
    rewrite (bind_ok _ _ _ _ _ Hr), (bind_ok _ _ _ _ _ Hrs).
    split; [reflexivity|]. split; [by constructor|exact Hh2].
Qed.

Lemma run_code_quality_checks_passes :
  passes_when_healthy (run_code_quality_checks env).
Proof.
  intros st Hh.
  destruct (run_checks_pass checks st Hh) as (rs & st' & Hrs & Hall & Hh').
  destruct (run_code_quality_checks_returns env st)
    as (rs' & st'' & Hrs' & Hlen & _ & Hq & _). cbn zeta in Hq.
  rewrite Hrs in Hrs'. injection Hrs' as <- <-.
  assert (length (List.filter (flag_on "success") rs) = length rs) as Hcount.
  { clear -Hall. induction Hall as [|r rs Hr _ IH]; [reflexivity|].
    cbn. unfold flag_on at 1. rewrite Hr. cbn. by rewrite IH. }
  rewrite Hcount, Hlen in Hq.
  eexists _, st'. split; [exact Hq|]. split; [reflexivity|exact Hh'].
Qed.

Lemma run_categories_pass (cats : list (string * M pyval)) (st : State) :
  Forall (fun c => well_behaved c.2 ∧ passes_when_healthy c.2) cats →
  healthy (fs st) →
  all_passed (results st) →
  ∃ st' : State,
    run_categories env cats st = (Ok tt, st') ∧
    healthy (fs st') ∧ all_passed (results st').
Proof.
  intros Hcats. revert st.
  induction Hcats as [|[n f] cats [Hwb Hf] _ IH]; intros st Hh Hall.
  - exists st. split; [reflexivity|]. by split.
  - cbn [snd] in *. destruct (Hf st Hh) as (r & st1 & Hr & Hpassed & Hh1).
    destruct (Hwb _ _ _ Hr) as [Hres _].
    destruct (IH (set_results (dict_set n r (results st1)) st1))
      as (st' & Hrest & Hh' & Hall').
    + exact Hh1.
    + cbn [results set_results]. unfold all_passed. rewrite Hres.
      by apply dict_set_values.
    + exists st'. cbn [run_categories]. rewrite bind_unfold.
      unfold run_category at 1, try_except. rewrite Hr.
      unfold store_result. split; [exact Hrest|]. by split.
Qed.

Lemma test_categories_pass :
  Forall (fun c => well_behaved c.2 ∧ passes_when_healthy c.2) (test_categories env).
Proof.
  unfold test_categories.
  repeat (constructor;
          [split; [first [ apply run_code_quality_checks_well_behaved
                         | apply run_unit_tests_well_behaved
                         | apply run_single_well_behaved ]
                  |first [ apply run_code_quality_checks_passes
                         | apply run_unit_tests_passes
                         | apply run_single_passes ]] |]).
  constructor.
Qed.

(** X7. When the tools all pass, a full-suite run in a healthy layout exits
    with status 0: every category is recorded as passed, and the summary it
    writes and prints says PASSED with seven categories out of seven. *)
Theorem healthy_full_suite_exits_zero (fs0 : gmap path node) :
  healthy fs0 →
  ∃ (st : State) (summary : pyval),
    main env None fs0 = (0, st) ∧
    all_passed (results st) ∧
    dict_keys (results st) = choices ∧
    fs_lookup (fs st) report_file = Some (File (Json summary)) ∧
    last (trace st) = Some (EvFinalReport summary) ∧
    getitem summary "overall_status" = Ok (VStr "PASSED") ∧
    getitem summary "passed_categories" = Ok (VInt 7) ∧
    getitem summary "total_categories" = Ok (VInt 7).
Proof.
  intros Hh.
  assert (fs_op (mkdir true true reports_dir) (new_runner fs0) = (Ok tt, new_runner fs0))
    as Hmk.
  { destruct Hh as (_ & _ & Hdocs & Hreports & _).
    unfold fs_op, mkdir. cbn [fs new_runner].
    by rewrite mkdir_parents_present. }
  destruct (run_categories_pass (test_categories env) (new_runner fs0)
              test_categories_pass Hh) as (st1 & Hloop & Hh1 & Hall1);
    [constructor|].
  pose proof (full_suite_results_flagged env _ _ _ Hmk Hloop) as Hflags.
  destruct (full_suite_keys env _ _ _ Hmk Hloop) as [Hkeys Hlen].
  destruct (build_summary_returns env _ Hflags) as (n & rate & Hbuild & _ & _ & Hiff & _).
  cbn zeta in Hbuild.
  assert (n = 7) as -> by (rewrite <- Hlen; by apply Hiff).
  rewrite Hlen in Hbuild. cbn in Hbuild.
  destruct (report_phase_cases env st1 _ "PASSED" Hbuild eq_refl)
    as [(st2 & Hgen & Hphase) | (e & st2 & Hgen & _)].
  - destruct (generate_summary_report_cases env st1 _ Hbuild)
      as [(st2' & Hgen' & Hres & Htr & Hfile) | (e & st2' & Hgen' & _)];
      rewrite Hgen in Hgen'; [|discriminate]. injection Hgen' as <-.
    eexists _, _. split.
    + unfold main, parse_args, main_body. cbn [truthy]. rewrite bind_unfold.
      rewrite (run_full_suite_phases env _ _ _ Hmk Hloop), Hphase. reflexivity.
    + cbn [results emit fs trace]. rewrite Hres.
      split; [exact Hall1|]. split; [exact Hkeys|]. split; [exact Hfile|].
      split; [apply last_snoc|]. repeat split.
  - exfalso.
    destruct Hh1 as (_ & _ & Hdocs & Hreports & Hfile).
    revert Hgen. unfold generate_summary_report.
    rewrite bind_unfold. unfold read_results at 1.
    rewrite bind_unfold. unfold lift at 1. rewrite Hbuild.
    rewrite bind_unfold. unfold fs_op at 1, mkdir.
    change (parent report_file) with reports_dir.
    rewrite mkdir_parents_present by assumption.
    rewrite bind_unfold. unfold fs_op at 1. cbn [fs set_fs].
    rewrite write_file_new; [discriminate| |].
    + change (parent report_file) with reports_dir.
      unfold is_dir in Hreports.
      destruct (fs_lookup (fs st1) reports_dir) as [[|?]|]; congruence.
    + unfold is_dir in Hfile.
      destruct (fs_lookup (fs st1) report_file) as [[|?]|]; congruence.
Qed.

End HealthyRun.

Lemma healthy_full_suite_witness :
  ∃ st : State, main (env_exit 0) None fs_ready = (0, st) ∧ all_passed (results st).
Proof.
  assert (healthy fs_ready) as Hh.
  { repeat split; try (vm_compute; reflexivity). vm_compute. intros [=]. }
  destruct (healthy_full_suite_exits_zero (env_exit 0)) with (fs0 := fs_ready)
    as (st & summary & Hmain & Hall & _).
  - intros cmd t f Hf. split; [|exact Hf]. by exists "", "", 1%Q.
  - exact Hh.
  - exists st. split; assumption.
Defined.

Section SingleCategory.

Variable env : Env.

Lemma omap_length_le {A B : Type} (f : A → option B) (l : list A) :
  (length (omap f l) ≤ length l)%nat.
Proof.
  induction l as [|x l IH]; cbn; [lia|]. destruct (f x); cbn; lia.
Qed.

(** What each runner adds to the trace is launches only. *)
Lemma runner_trace_is_spawns (c : string) (method : M pyval) (st : State) :
  dict_get c (category_methods env) = Some method →
  ∃ evs : list event,
    trace (method st).2 = (trace st ++ evs)%list ∧
    Forall (fun ev => is_spawn ev = true) evs ∧
    (c = "code_quality" → evs = spawns checks) ∧
    (c ≠ "code_quality" → (length evs ≤ 1)%nat).
Proof.
  unfold category_methods. cbn [dict_get].
  destruct (String.eqb_spec c "code_quality") as [->|Hq].
  { intros [= <-].
    destruct (run_code_quality_checks_returns env st)
      as (rs & st' & _ & _ & _ & Hr & _ & Htr). cbn zeta in Hr.
    rewrite Hr. exists (spawns checks). split; [exact Htr|].
    split; [by repeat constructor|]. split; [done|congruence]. }
  destruct (String.eqb_spec c "unit_tests") as [->|Hu].
  { intros [= <-].
    destruct (run_unit_tests_cases env st)
      as [(e & st' & _ & Hr & _ & Htr) | (stp & res & b & _ & _ & Htr & _ & _ & Hr)];
      rewrite Hr; cbn [snd].
    - exists []. rewrite app_nil_r. split; [exact Htr|].
      split; [constructor|]. split; [congruence|]. intros _. cbn. lia.
    - exists [EvSpawn unit_tests_cmd default_timeout]. cbn. rewrite Htr.
      split; [reflexivity|]. split; [by repeat constructor|].
      split; [congruence|]. intros _. lia. }
  repeat (match goal with
          | |- context [String.eqb c ?s] =>
              destruct (String.eqb_spec c s) as [->|?];
              [intros [= <-]; eexists [_]; split; [apply run_single_trace|];
               split; [by repeat constructor|];
               split; [congruence|]; intros _; cbn; lia|]
          end).
  discriminate.
Qed.

(** Given a valid category, [main] ends in the state its runner leaves. *)
Lemma main_single_state (c : string) (method : M pyval) (fs0 : gmap path node) :
  c ∈ choices →
  dict_get c (category_methods env) = Some method →
  (main env (Some c) fs0).2 = (method (new_runner fs0)).2.
Proof.
  intros Hc Hm. rewrite (main_single_category env c method fs0 Hc Hm).
  destruct (method (new_runner fs0)) as [[r|e] st]; [|reflexivity].
  destruct (getitem r "passed"); reflexivity.
Qed.

(** X8. For every valid category name, single-category mode runs the
    runner of that category on a new runner object and nothing else: the
    process ends in the state that runner leaves, so nothing is recorded in
    [self.results], no summary is printed, and the events are launches only,
    the six quality tools for [code_quality] and at most one command for any
    other category. *)
Theorem single_category_mode (c : string) (fs0 : gmap path node) :
  c ∈ choices →
  ∃ method : M pyval,
    dict_get c (category_methods env) = Some method ∧
    (main env (Some c) fs0).2 = (method (new_runner fs0)).2 ∧
    results (main env (Some c) fs0).2 = [] ∧
    printed_summaries (main env (Some c) fs0).2 = [] ∧
    Forall (fun ev => is_spawn ev = true) (trace (main env (Some c) fs0).2) ∧
    (c = "code_quality" → launched (main env (Some c) fs0).2 = map fst checks) ∧
    (c ≠ "code_quality" → (length (launched (main env (Some c) fs0).2) ≤ 1)%nat).
Proof.
  intros Hc.
  destruct (category_methods_lookup env c Hc) as (_ & method & Hm & Hwb).
  exists method. split; [exact Hm|].
  rewrite (main_single_state c method fs0 Hc Hm). split; [reflexivity|].
  destruct (runner_trace_is_spawns c method (new_runner fs0) Hm)
    as (evs & Htr & Hspawns & Hquality & Hother).
  cbn [trace new_runner app] in Htr.
  split.
  { destruct (method (new_runner fs0)) as [r st] eqn:E.
    cbn [snd]. by destruct (Hwb _ _ _ E) as [-> _]. }
  unfold printed_summaries, launched. rewrite Htr.
  split; [|split; [exact Hspawns|split]].
  - clear -Hspawns. induction Hspawns as [|[] evs Hev _ IH]; try discriminate; done.
  - intros Hq. rewrite (Hquality Hq). reflexivity.
  - intros Hq. specialize (Hother Hq).
    etransitivity; [apply omap_length_le|]. exact Hother.
Qed.

End SingleCategory.

Lemma single_category_mode_witness :
  launched (main (env_exit 1) (Some "code_quality") fs_checkout).2 = map fst checks.
Proof.
  destruct (single_category_mode (env_exit 1) "code_quality" fs_checkout)
    as (method & _ & _ & _ & _ & _ & Hq & _).
  - compute_done.
  - by apply Hq.
Defined.

Section EdgeCases.

Variable env : Env.

Lemma spawn_is_not_invalid (evs : list event) :
  Forall (fun ev => is_spawn ev = true) evs →
  Forall (fun ev => is_invalid_category ev = false) evs.
Proof.
  induction 1 as [|[] evs Hev _ IH]; try discriminate; by constructor.
Qed.

(** The report phase adds to the trace the printed summary, or nothing when
    it fails. *)
Lemma report_phase_trace (st : State) :
  Forall (has_flag "passed") (dict_values (results st)) →
  trace (report_phase env st).2 = trace st ∨
  ∃ summary : pyval,
    trace (report_phase env st).2 = (trace st ++ [EvFinalReport summary])%list.
Proof.
  intros Hflags.
  destruct (build_summary_returns env _ Hflags) as (n & rate & Hbuild & _).
  cbn zeta in Hbuild.
  destruct (generate_summary_report_cases env st _ Hbuild)
    as [(st' & Hgen & _ & Htr & _) | (e & st' & Hgen & _ & _ & Htr)].
  - right. eexists. unfold report_phase. rewrite (bind_ok _ _ _ _ _ Hgen).
    rewrite bind_unfold. unfold print_final_report at 1.
    rewrite bind_unfold. unfold lift at 1. cbn. by rewrite Htr.
  - left. unfold report_phase. by rewrite (bind_raise _ _ _ _ _ Hgen).
Qed.

(** X9. The branch of [main] that reports a category without a runner is
    dead code: whatever the command line and the environment, its message is
    never printed.  The choices that [parse_args] accepts are the keys of
    [category_methods], and no runner prints it either. *)
Theorem invalid_category_branch_is_dead
    (category : option string) (fs0 : gmap path node) :
  Forall (fun ev => is_invalid_category ev = false) (trace (main env category fs0).2).
Proof.
  destruct category as [c|].
  - destruct (decide (c ∈ choices)) as [Hc|Hc].
    + destruct (category_methods_lookup env c Hc) as (_ & method & Hm & _).
      rewrite (main_single_state env c method fs0 Hc Hm).
      destruct (runner_trace_is_spawns env c method (new_runner fs0) Hm)
        as (evs & -> & Hspawns & _).
      by apply spawn_is_not_invalid.
    + unfold main, parse_args. rewrite bool_decide_eq_false_2 by exact Hc.
      cbn. by repeat constructor.
  - assert ((main env None fs0).2 = (run_full_suite env (new_runner fs0)).2) as ->.
    { unfold main, parse_args, main_body. cbn [truthy]. rewrite bind_unfold.
      by destruct (run_full_suite env (new_runner fs0)) as [[[|]|e] st]. }
    destruct (fs_op (mkdir true true reports_dir) (new_runner fs0))
      as [[[]|e] st0] eqn:Hmk.
    + destruct (run_categories_spawn_only env _ st0 (test_categories_spawn_only env))
        as (st1 & evs & Hloop & Htr1 & Hspawns).
      rewrite (run_full_suite_phases env _ _ _ Hmk Hloop).
      pose proof (full_suite_results_flagged env _ _ _ Hmk Hloop) as Hflags.
      pose proof (fs_op_frame _ _ _ _ Hmk) as [_ Htr0]. cbn in Htr0.
      rewrite Htr0 in Htr1. cbn [app] in Htr1.
      destruct (report_phase_trace st1 Hflags) as [-> | [summary ->]]; rewrite Htr1.
      * by apply spawn_is_not_invalid.
      * apply Forall_app. split; [by apply spawn_is_not_invalid|by repeat constructor].
    + unfold run_full_suite. rewrite (bind_raise _ _ _ _ _ Hmk). cbn [snd].
      apply fs_op_frame in Hmk as [_ ->]. constructor.
Qed.

(** [count_if] on dictionaries one of which lacks the key raises
    [KeyError]. *)
Lemma count_if_missing (key : string) (rs : list pyval) :
  Forall is_dict rs →
  Exists (fun r => getitem r key = Raise (KeyError key)) rs →
  count_if key rs = Raise (KeyError key).
Proof.
  intros Hdict Hmissing. induction Hdict as [|r rs [d ->] _ IH]; [inversion Hmissing|].
  cbn [count_if].
  destruct (getitem (VDict d) key) as [v|e] eqn:E.
  - apply Exists_cons in Hmissing as [Hhd|Htl]; [congruence|].
    cbn. by rewrite (IH Htl).
  - cbn in E |- *. destruct (dict_get key d); [discriminate|]. by injection E as <-.
Qed.

(** X10. [generate_summary_report] reads [passed] from every recorded
    result: when the recorded values are dictionaries and one of them has no
    [passed], it raises [KeyError] for that key, and it has then written no
    report and changed nothing. *)
Theorem summary_needs_passed (st : State) (k : string) (d : list (string * pyval)) :
  Forall is_dict (dict_values (results st)) →
  dict_get k (results st) = Some (VDict d) →
  dict_get "passed" d = None →
  build_summary env (results st) = Raise (KeyError "passed") ∧
  generate_summary_report env st = (Raise (KeyError "passed"), st).
Proof.
  intros Hdict Hk Hd.
  assert (count_if "passed" (dict_values (results st)) = Raise (KeyError "passed"))
    as Hcount.
  { apply count_if_missing; [exact Hdict|].
    clear Hdict. induction (results st) as [|[k' v'] rs IH]; [discriminate|].
    cbn in Hk |- *. destruct (String.eqb k k').
    - injection Hk as ->. apply Exists_cons_hd. cbn. by rewrite Hd.
    - apply Exists_cons_tl. by apply IH. }
  assert (build_summary env (results st) = Raise (KeyError "passed")) as Hbuild.
  { unfold build_summary. by rewrite Hcount. }
  split; [exact Hbuild|].
  unfold generate_summary_report. rewrite bind_unfold. unfold read_results at 1.
  rewrite bind_unfold. unfold lift at 1. by rewrite Hbuild.
Qed.

Lemma mkdir_parents_blocked (depth : nat) (p : path) (f : gmap path node)
    (c : content) :
  fs_lookup f (parent p) = Some (File c) →
  is_dir f p = false →
  mkdir_parents depth true p f = Raise (NotADirectoryError p).
Proof.
  intros Hparent Hp.
  destruct depth; cbn [mkdir_parents]; unfold os_mkdir;
    rewrite Hparent, Hp; reflexivity.
Qed.

(** X11. When [docs] is a regular file, so that the report directory
    cannot be made, a full-suite run stops before the first category: the
    process exits with status 1 and has launched nothing, recorded nothing
    and written nothing. *)
Theorem full_suite_needs_report_dir (fs0 : gmap path node) (c : content) :
  fs_lookup fs0 ["docs"] = Some (File c) →
  is_dir fs0 reports_dir = false →
  mkdir true true reports_dir fs0 = Raise (NotADirectoryError reports_dir) ∧
  run_full_suite env (new_runner fs0) =
    (Raise (NotADirectoryError reports_dir), new_runner fs0) ∧
  main env None fs0 = (1, new_runner fs0).
Proof.
  intros Hdocs Hreports.
  assert (mkdir true true reports_dir fs0 = Raise (NotADirectoryError reports_dir))
    as Hmk.
  { unfold mkdir. apply mkdir_parents_blocked with c; [exact Hdocs|exact Hreports]. }
  split; [exact Hmk|].
  assert (run_full_suite env (new_runner fs0) =
          (Raise (NotADirectoryError reports_dir), new_runner fs0)) as Hrun.
  { unfold run_full_suite. apply bind_raise. unfold fs_op. cbn [fs new_runner].
    by rewrite Hmk. }
  split; [exact Hrun|].
  unfold main, parse_args, main_body. cbn [truthy]. rewrite bind_unfold.
  by rewrite Hrun.
Qed.

End EdgeCases.

Lemma summary_needs_passed_witness :
  generate_summary_report (env_exit 0) st_unflagged =
  (Raise (KeyError "passed"), st_unflagged).
Proof.
  apply (summary_needs_passed (env_exit 0) st_unflagged "code_quality"
           [("category", VStr "code_quality")]).
  - repeat constructor. by eexists.
  - reflexivity.
  - reflexivity.
Defined.

Lemma full_suite_needs_report_dir_witness :
  main (env_exit 0) None {[ ["docs"] := File (Text "notes") ]} =
  (1, new_runner {[ ["docs"] := File (Text "notes") ]}).
Proof.
  apply (full_suite_needs_report_dir (env_exit 0) _ (Text "notes"));
    vm_compute; reflexivity.
Defined.

Section GentlePreparation.

Variable env : Env.

(** The two steps of a preparation that succeeds: [tests/unit] is made or
    found, and the basic test is written if and only if [glob] finds
    nothing. *)
Lemma prepare_unit_tests_steps (st stp : State) :
  prepare_unit_tests st = (Ok tt, stp) →
  ∃ f1 : gmap path node,
    mkdir_here true unit_tests_dir (fs st) = Ok f1 ∧
    stp = set_fs (fs stp) st ∧
    ((glob unit_tests_dir "test_*.py" f1 = ∅ ∧
      fs stp = <[basic_test := File (Text basic_test_text)]> f1)
     ∨ (glob unit_tests_dir "test_*.py" f1 ≠ ∅ ∧ fs stp = f1)).
Proof.
  destruct st as [rs f tr]. cbn [fs].
  unfold prepare_unit_tests. rewrite bind_unfold. unfold fs_op at 1, mkdir. cbn [fs].
  destruct (mkdir_here true unit_tests_dir f) as [f1|e]; [|discriminate].
  rewrite bind_unfold. unfold read_fs at 1. cbn [set_fs fs].
  intros Hrest. exists f1. split; [reflexivity|].
  case_bool_decide as Hglob.
  - unfold fs_op in Hrest. cbn [fs set_fs] in Hrest.
    destruct (write_file basic_test (Text basic_test_text) f1) as [f2|e] eqn:Hw;
      [|discriminate].
    injection Hrest as <-. apply write_file_ok in Hw as [-> _].
    split; [reflexivity|]. by left.
  - injection Hrest as <-. split; [reflexivity|]. by right.
Qed.

Lemma glob_nonempty (dir : path) (pat : string) (f : gmap path node) (p : path)
    (x : node) :
  fs_lookup f p = Some x → glob_hit dir pat p = true → glob dir pat f ≠ ∅.
Proof.
  intros Hp Hhit Hempty.
  rewrite (glob_empty_fs_lookup _ _ _ _ Hempty Hhit) in Hp. discriminate.
Qed.

(** X12. A preparation of the unit tests that succeeds is gentle and
    idempotent: every path that existed before still holds what it held, so
    no file is overwritten or removed, the basic test included; afterwards
    [tests/unit] holds at least one entry matching [test_*.py]; and preparing
    again changes nothing. *)
Theorem prepare_unit_tests_is_gentle (st stp : State) :
  prepare_unit_tests st = (Ok tt, stp) →
  (∀ (p : path) (x : node),
      fs_lookup (fs st) p = Some x → fs_lookup (fs stp) p = Some x) ∧
  glob unit_tests_dir "test_*.py" (fs stp) ≠ ∅ ∧
  prepare_unit_tests stp = (Ok tt, stp).
Proof.
  intros Hprep.
  destruct (prepare_unit_tests_steps st stp Hprep) as (f1 & Hmk & Hstp & Hwrite).
  assert (glob_hit unit_tests_dir "test_*.py" basic_test = true) as Hhit
    by (vm_compute; reflexivity).
  assert (basic_test ≠ unit_tests_dir) as Hne by discriminate.
  assert (fs_lookup f1 unit_tests_dir = Some Dir ∧
          (∀ (p : path) (x : node), fs_lookup (fs st) p = Some x → fs_lookup f1 p = Some x) ∧
          glob unit_tests_dir "test_*.py" f1 = glob unit_tests_dir "test_*.py" (fs st) ∧
          mkdir_here true unit_tests_dir f1 = Ok f1)
    as (Hdir1 & Hkeep1 & Hglob1 & Hagain).
  { pose proof Hmk as Hmk'. unfold mkdir_here, os_mkdir in Hmk'.
    destruct (fs_lookup (fs st) (parent unit_tests_dir)) as [[|c]|] eqn:Hparent;
      [| |discriminate].
    - destruct (mkdir_here_exist_ok _ _ _ Hmk) as [[Hdir ->] | [Hnone ->]].
      + unfold is_dir in Hdir.
        destruct (fs_lookup (fs st) unit_tests_dir) as [[|?]|] eqn:E; try discriminate.
        split; [reflexivity|]. split; [auto|]. split; [reflexivity|].
        by apply mkdir_here_present.
      + split; [by apply fs_lookup_insert_eq|]. split; [|split].
        * intros p x Hp. rewrite fs_lookup_insert_ne; [exact Hp|]. intros <-. congruence.
        * by apply glob_insert_dir.
        * apply mkdir_here_present; [|by apply fs_lookup_insert_eq].
          rewrite fs_lookup_insert_ne by discriminate. exact Hparent.
    - destruct (mkdir_here_exist_ok _ _ _ Hmk) as [[Hdir ->] | [Hnone ->]].
      + unfold is_dir in Hdir.
        destruct (fs_lookup (fs st) unit_tests_dir) as [[|?]|] eqn:E; try discriminate.
        split; [reflexivity|]. split; [auto|]. split; [reflexivity|]. exact Hmk.
      + unfold is_dir in Hmk'. rewrite Hnone in Hmk'. discriminate. }
  assert (stp = set_fs (fs stp) stp) as Heta by (by destruct stp).
  destruct Hwrite as [[Hglob Hfs] | [Hglob Hfs]].
  - assert (fs_lookup f1 basic_test = None) as Hnone
      by exact (glob_empty_fs_lookup _ _ _ _ Hglob Hhit).
    assert (glob unit_tests_dir "test_*.py" (fs stp) ≠ ∅) as Hfound.
    { apply (glob_nonempty _ _ _ basic_test (File (Text basic_test_text)));
        [|exact Hhit].
      rewrite Hfs. by apply fs_lookup_insert_eq. }
    split; [|split; [exact Hfound|]].
    + intros p x Hp. rewrite Hfs. apply Hkeep1 in Hp.
      rewrite fs_lookup_insert_ne; [exact Hp|]. intros <-. congruence.
    + unfold prepare_unit_tests. rewrite bind_unfold. unfold fs_op at 1, mkdir.
      assert (mkdir_here true unit_tests_dir (fs stp) = Ok (fs stp)) as ->.
      { rewrite Hfs. unfold mkdir_here, os_mkdir, is_dir in Hagain |- *.
        rewrite !(fs_lookup_insert_ne basic_test) by (try discriminate; congruence).
        destruct (fs_lookup f1 (parent unit_tests_dir)) as [[|?]|]; try discriminate;
          rewrite Hdir1 in Hagain |- *; reflexivity. }
      rewrite <- Heta. rewrite bind_unfold. unfold read_fs at 1.
      by rewrite bool_decide_eq_false_2.
  - split; [|split].
    + intros p x Hp. rewrite Hfs. by apply Hkeep1.
    + by rewrite Hfs.
    + unfold prepare_unit_tests. rewrite bind_unfold. unfold fs_op at 1, mkdir.
      rewrite Hfs, Hagain, <- Hfs, <- Heta.
      rewrite bind_unfold. unfold read_fs at 1.
      rewrite bool_decide_eq_false_2; [reflexivity|by rewrite Hfs].
Qed.

End GentlePreparation.

Lemma prepare_unit_tests_is_gentle_witness :
  let stp := (prepare_unit_tests (new_runner fs_checkout)).2 in
  prepare_unit_tests stp = (Ok tt, stp).
Proof.
  intros stp.
  apply (prepare_unit_tests_is_gentle (new_runner fs_checkout) stp).
  vm_compute. reflexivity.
Defined.

Section PassingCategories.

Variable env : Env.

Lemma run_command_exit_iff (cmd : list string) (name : string) (t : Z)
    (st st' : State) (r : pyval) :
  run_command env cmd name t st = (Ok r, st') →
  exited_zero r → flag_set "success" r.
Proof.
  unfold run_command, flag_set, exited_zero.
  destruct (subprocess_run env cmd t (fs st)) as [[rc out err el| |msg] fs'];
    intros [= <- _]; cbn; try discriminate.
  by intros [= ->].
Qed.

Lemma run_checks_exit (cs : list (list string * string)) (st st' : State)
    (rs : list pyval) :
  run_checks env cs st = (Ok rs, st') →
  Forall (fun r => exited_zero r → flag_set "success" r) rs.
Proof.
  revert st st' rs. induction cs as [|[cmd name] cs IH]; intros st st' rs.
  - cbn. intros [= <- _]. constructor.
  - cbn [run_checks]. rewrite bind_unfold.
    destruct (run_command env cmd name default_timeout st) as [[r|e] st1] eqn:Hr;
      [|discriminate].
    rewrite bind_unfold.
    destruct (run_checks env cs st1) as [[rs'|e] st2] eqn:Hrs; [|discriminate].
    intros [= <- _]. constructor; [|by eapply IH].
    by apply (run_command_exit_iff _ _ _ _ _ _ Hr).
Qed.

Lemma run_single_passes_iff (category : string) (cmd : list string) (name : string)
    (t : Z) (st st' : State) (r : pyval) :
  run_single env category cmd name t st = (Ok r, st') →
  commands_exited_zero r → flag_set "passed" r.
Proof.
  intros Hr.
  destruct (run_single_returns env category cmd name t st) as (res & b & Hrun & Hb & Hs).
  rewrite Hs in Hr. injection Hr as <- <-.
  intros (rs & Hrs & _ & Hall). injection Hrs as <-.
  apply Forall_cons in Hall as [Hzero _].
  pose proof (run_command_exit_iff _ _ _ _ _ _ Hrun Hzero) as Hsuccess.
  unfold flag_set in Hsuccess. rewrite Hb in Hsuccess. by injection Hsuccess as ->.
Qed.

(** X13. A category passes exactly when every command it ran returned 0.
    For each of the seven runners, the result it returns has [passed == True]
    if and only if it lists at least one command result and all of them carry
    return code 0; a timeout or a command that could not be launched carries
    no return code, and fails the category. *)
Theorem category_passes_iff_commands_exited_zero
    (c : string) (method : M pyval) (st st' : State) (r : pyval) :
  dict_get c (category_methods env) = Some method →
  method st = (Ok r, st') →
  flag_set "passed" r ↔ commands_exited_zero r.
Proof.
  unfold category_methods. cbn [dict_get].
  destruct (String.eqb_spec c "code_quality") as [->|Hq].
  { intros [= <-] Hr. split; [by apply (run_code_quality_checks_honest env _ _ _ Hr)|].
    destruct (run_code_quality_checks_returns env st)
      as (rs & st1 & Hrs & Hlen & _ & Hq & _). cbn zeta in Hq.
    rewrite Hq in Hr. injection Hr as <- <-.
    intros (rs' & Hrs' & _ & Hall). injection Hrs' as <-.
    pose proof (run_checks_exit _ _ _ _ Hrs) as Hexit.
    assert (length (List.filter (flag_on "success") rs) = length rs) as Hcount.
    { clear -Hall Hexit. induction Hall as [|x rs Hx _ IH]; [reflexivity|].
      apply Forall_cons in Hexit as [Hhd Htl].
      cbn. unfold flag_on at 1. rewrite (Hhd Hx). cbn. by rewrite IH. }
    unfold flag_set. cbn. rewrite Hcount, Hlen. reflexivity. }
  destruct (String.eqb_spec c "unit_tests") as [->|Hu].
  { intros [= <-] Hr. split; [by apply (run_unit_tests_honest env _ _ _ Hr)|].
    unfold run_unit_tests in Hr. rewrite bind_unfold in Hr.
    destruct (prepare_unit_tests st) as [[[]|e] stp]; [|discriminate].
    by apply (run_single_passes_iff _ _ _ _ _ _ _ Hr). }
  repeat (match goal with
          | |- context [String.eqb c ?s] =>
              destruct (String.eqb_spec c s) as [->|?];
              [intros [= <-] Hr;
               split; [by apply (run_single_honest env _ _ _ _ _ _ _ Hr)
                      |by apply (run_single_passes_iff _ _ _ _ _ _ _ Hr)]|]
          end).
  discriminate.
Qed.

End PassingCategories.

Lemma category_passes_iff_witness :
  let out := run_performance_tests env_timeout (new_runner fs_checkout) in
  ∃ r : pyval, out.1 = Ok r ∧ (flag_set "passed" r ↔ commands_exited_zero r).
Proof.
  intros out.
  assert (∃ r, out.1 = Ok r) as [r Hr] by (vm_compute; eauto).
  exists r. split; [exact Hr|].
  apply (category_passes_iff_commands_exited_zero env_timeout "performance_tests"
           (run_performance_tests env_timeout) (new_runner fs_checkout) out.2 r).
  - reflexivity.
  - rewrite <- Hr. apply surjective_pairing.
Defined.

Section OwnPaths.

Variable env : Env.

Hypothesis Hquiet : quiet env.

Lemma keeps_bind {A B : Type} (m : M A) (k : A → M B) :
  keeps_other_paths m → (∀ a : A, keeps_other_paths (k a)) →
  keeps_other_paths (m ≫= k).
Proof.
  intros Hm Hk st p Hp. rewrite bind_unfold. specialize (Hm st p Hp).
  destruct (m st) as [[a|e] st1]; cbn [snd] in *; [|exact Hm].
  rewrite (Hk a st1 p Hp). exact Hm.
Qed.

Lemma keeps_pure {A : Type} (m : M A) :
  (∀ st : State, fs (m st).2 = fs st) → keeps_other_paths m.
Proof. intros Hm st p _. by rewrite Hm. Qed.

Lemma keeps_fs_op (op : gmap path node → result (gmap path node)) :
  op_keeps_other_paths op → keeps_other_paths (fs_op op).
Proof.
  intros Hop st p Hp. unfold fs_op.
  destruct (op (fs st)) as [f'|e] eqn:E; [|reflexivity].
  cbn. by apply (Hop _ _ _ E).
Qed.

Lemma keeps_try_except {A B : Type} (body : M A) (on_ok : A → M B)
    (handler : exn → M B) :
  keeps_other_paths body → (∀ a : A, keeps_other_paths (on_ok a)) →
  (∀ e : exn, keeps_other_paths (handler e)) →
  keeps_other_paths (try_except body on_ok handler).
Proof.
  intros Hb Hok Hh st p Hp. unfold try_except. specialize (Hb st p Hp).
  destruct (body st) as [[a|e] st1]; cbn [snd] in *.
  - rewrite (Hok a st1 p Hp). exact Hb.
  - rewrite (Hh e st1 p Hp). exact Hb.
Qed.

Lemma own_path_insert (q : path) (x : node) (f : gmap path node) (p : path) :
  q ∈ own_paths → p ∉ own_paths → fs_lookup (<[q := x]> f) p = fs_lookup f p.
Proof. intros Hq Hp. apply fs_lookup_insert_ne. intros ->. contradiction. Qed.

Lemma mkdir_here_keeps (exist_ok : bool) (q : path) :
  q ∈ own_paths → op_keeps_other_paths (mkdir_here exist_ok q).
Proof.
  intros Hq f f' p Hmk Hp.
  apply mkdir_here_ok in Hmk as [-> | ->]; [reflexivity|by apply own_path_insert].
Qed.

Lemma write_file_keeps (q : path) (c : content) :
  q ∈ own_paths → op_keeps_other_paths (write_file q c).
Proof.
  intros Hq f f' p Hw Hp. apply write_file_ok in Hw as [-> _].
  by apply own_path_insert.
Qed.

(** [mkdir] with parents changes the path it is given and its ancestors
    only. *)
Lemma mkdir_parents_changes (depth : nat) (exist_ok : bool) (q : path)
    (f f' : gmap path node) (p : path) :
  mkdir_parents depth exist_ok q f = Ok f' →
  fs_lookup f' p = fs_lookup f p ∨ ∃ k : path, q = (p ++ k)%list.
Proof.
  revert exist_ok q f f'.
  induction depth as [|depth IH]; intros exist_ok q f f'; cbn [mkdir_parents];
    destruct (os_mkdir q f) as [f1|e] eqn:E.
  1,3: intros [= <-]; unfold os_mkdir in E;
       destruct (fs_lookup f (parent q)) as [[|?]|]; try discriminate;
       destruct (fs_lookup f q); [discriminate|]; injection E as <-;
       destruct (decide (q = p)) as [->|Hne];
       [right; exists []; by rewrite app_nil_r|left; by apply fs_lookup_insert_ne].
  - destruct e; try (destruct (exist_ok && is_dir f q); [intros [= <-]; by left|discriminate]).
    destruct q; discriminate.
  - destruct e; try (destruct (exist_ok && is_dir f q); [intros [= <-]; by left|discriminate]).
    destruct q as [|a q]; [discriminate|].
    destruct (mkdir_parents depth true (parent (a :: q)) f) as [fs1|e1] eqn:E1;
      [|discriminate].
    cbn. intros Hhere.
    assert (∃ k : path, a :: q = (parent (a :: q) ++ k)%list) as [k0 Hk0].
    { exists [List.last (a :: q) ""]. unfold parent.
      by apply (@app_removelast_last _ (a :: q) ""). }
    destruct (IH _ _ _ _ E1) as [Hsame | [k Hk]].
    + apply mkdir_here_ok in Hhere as [-> | ->]; [by left|].
      destruct (decide (a :: q = p)) as [<-|Hne].
      * right. exists []. by rewrite app_nil_r.
      * left. rewrite fs_lookup_insert_ne by exact Hne. exact Hsame.
    + right. exists (k ++ k0)%list. rewrite app_assoc, <- Hk. exact Hk0.
Qed.

(** Making the report directory with its parents touches [docs] and
    [docs/coverage_report] only. *)
Lemma mkdir_reports_keeps (exist_ok : bool) :
  op_keeps_other_paths (mkdir true exist_ok reports_dir).
Proof.
  intros f f' p Hmk Hp. unfold mkdir in Hmk.
  destruct (mkdir_parents_changes _ _ _ _ _ p Hmk) as [Hsame | [k Hk]]; [exact Hsame|].
  destruct p as [|a [|b [|c p]]]; [reflexivity| | |discriminate].
  - injection Hk as <- _. exfalso. apply Hp. compute_done.
  - injection Hk as <- <- _. exfalso. apply Hp. compute_done.
Qed.

Lemma run_command_keeps (cmd : list string) (name : string) (t : Z) :
  keeps_other_paths (run_command env cmd name t).
Proof.
  apply keeps_pure. intros st.
  destruct (run_command_returns env cmd name t st) as (r & b & -> & _).
  cbn. apply Hquiet.
Qed.

Lemma run_single_keeps (category : string) (cmd : list string) (name : string) (t : Z) :
  keeps_other_paths (run_single env category cmd name t).
Proof.
  unfold run_single. apply keeps_bind; [apply run_command_keeps|]. intros r.
  apply keeps_bind; [by apply keeps_pure|]. intros v. by apply keeps_pure.
Qed.

Lemma run_checks_keeps (cs : list (list string * string)) :
  keeps_other_paths (run_checks env cs).
Proof.
  induction cs as [|[cmd name] cs IH]; cbn [run_checks]; [by apply keeps_pure|].
  apply keeps_bind; [apply run_command_keeps|]. intros r.
  apply keeps_bind; [exact IH|]. intros rs. by apply keeps_pure.
Qed.

Lemma run_code_quality_checks_keeps : keeps_other_paths (run_code_quality_checks env).
Proof.
  unfold run_code_quality_checks. apply keeps_bind; [apply run_checks_keeps|].
  intros rs. apply keeps_bind; [by apply keeps_pure|]. intros n.
  apply keeps_bind; [by apply keeps_pure|]. intros q. by apply keeps_pure.
Qed.

Lemma prepare_unit_tests_keeps : keeps_other_paths prepare_unit_tests.
Proof.
  unfold prepare_unit_tests. apply keeps_bind.
  - apply keeps_fs_op. unfold mkdir. apply mkdir_here_keeps. compute_done.
  - intros _. apply keeps_bind; [by apply keeps_pure|]. intros now.
    case_bool_decide; [|by apply keeps_pure].
    apply keeps_fs_op, write_file_keeps. compute_done.
Qed.

Lemma run_unit_tests_keeps : keeps_other_paths (run_unit_tests env).
Proof.
  unfold run_unit_tests. apply keeps_bind; [apply prepare_unit_tests_keeps|].
  intros _. apply run_single_keeps.
Qed.

Lemma category_methods_keep (c : string) (method : M pyval) :
  dict_get c (category_methods env) = Some method → keeps_other_paths method.
Proof.
  unfold category_methods. cbn [dict_get].
  repeat (match goal with
          | |- context [String.eqb c ?s] =>
              destruct (String.eqb_spec c s) as [->|?];
              [intros [= <-];
               first [ apply run_code_quality_checks_keeps
                     | apply run_unit_tests_keeps
                     | apply run_single_keeps ]|]
          end).
  discriminate.
Qed.

Lemma run_categories_keeps (cats : list (string * M pyval)) :
  Forall (fun c => keeps_other_paths c.2) cats →
  keeps_other_paths (run_categories env cats).
Proof.
  induction 1 as [|[n f] cats Hf _ IH]; cbn [run_categories]; [by apply keeps_pure|].
  apply keeps_bind; [|intros _; exact IH].
  unfold run_category. apply keeps_try_except; [exact Hf| |]; intros ?; by apply keeps_pure.
Qed.

Lemma run_full_suite_keeps : keeps_other_paths (run_full_suite env).
Proof.
  unfold run_full_suite. apply keeps_bind; [apply keeps_fs_op, mkdir_reports_keeps|].
  intros _. apply keeps_bind.
  { apply run_categories_keeps. unfold test_categories.
    repeat (constructor; [first [ apply run_code_quality_checks_keeps
                                | apply run_unit_tests_keeps
                                | apply run_single_keeps ]|]).
    constructor. }
  intros _. unfold report_phase. apply keeps_bind.
  { unfold generate_summary_report. apply keeps_bind; [by apply keeps_pure|].
    intros rs. apply keeps_bind; [by apply keeps_pure|]. intros s.
    apply keeps_bind; [apply keeps_fs_op, mkdir_reports_keeps|]. intros _.
    apply keeps_bind; [|intros _; by apply keeps_pure].
    apply keeps_fs_op, write_file_keeps. compute_done. }
  intros s. apply keeps_bind; [by apply keeps_pure|]. intros _.
  apply keeps_bind; [by apply keeps_pure|]. intros v. by apply keeps_pure.
Qed.

(** X14. The script writes to five paths only.  When the commands it
    launches leave the file system alone, a run of [main], whatever the
    command line, leaves every path as it was except [docs],
    [docs/coverage_report], the summary report, [tests/unit] and
    [tests/unit/test_basic.py]. *)
Theorem main_writes_own_paths_only
    (category : option string) (fs0 : gmap path node) (p : path) :
  p ∉ own_paths →
  fs_lookup (fs (main env category fs0).2) p = fs_lookup fs0 p.
Proof.
  intros Hp. unfold main.
  destruct (parse_args category) as [status|args] eqn:Hargs; [reflexivity|].
  assert (keeps_other_paths (main_body env args)) as Hbody.
  { unfold main_body. destruct (truthy args).
    - destruct args; try by apply keeps_pure.
      destruct (dict_get s (category_methods env)) as [method|] eqn:Hm;
        [|by apply keeps_pure].
      apply keeps_bind; [by apply (category_methods_keep s)|].
      intros r. by apply keeps_pure.
    - apply keeps_bind; [apply run_full_suite_keeps|]. intros b. by apply keeps_pure. }
  specialize (Hbody (new_runner fs0) p Hp). cbn [fs new_runner] in Hbody.
  by destruct (main_body env args (new_runner fs0)) as [[v|e] st].
Qed.

End OwnPaths.

Lemma main_writes_own_paths_only_witness :
  fs_lookup (fs (main (env_exit 0) None fs_checkout).2) ["tests"] = Some Dir.
Proof.
  rewrite (main_writes_own_paths_only (env_exit 0)).
  - reflexivity.
  - intros cmd t f. reflexivity.
  - compute_done.
Defined.
